(** * TaskBuddy: the dependency container and its collaborators

    A shallow embedding of [core/dependency_container.py],
    [data/csv_task_repository.py], [business/task_manager_service.py] and the
    wiring of [main.py], with the properties of the design document stated
    and settled over it.

    Python objects live in a grow-only heap and are referred to by address;
    classes are referred to by an identifier and described by what the
    interpreter exposes about them ([__name__], [__mro__],
    [__abstractmethods__], the signature of [__init__]) together with the
    behaviour of calling them.  Code that logs or raises is written in a
    small state-and-exception monad; [resolve], which recurses through
    constructor annotations, takes fuel. *)

From Stdlib Require Import Ascii String.
From stdpp Require Import base option list relations gmap strings pretty.

(** ** Python values, objects and exceptions *)

Abbreviation ClassId := string (only parsing).

Inductive Value :=
| VNone
| VStr (s : string)
| VInt (z : Z)
| VRef (addr : nat).

#[global] Instance Value_eq_dec : EqDecision Value.
Proof. solve_decision. Defined.

(** A [dict] with string keys keeps insertion order; [d[k] = v] replaces the
    value of an existing key in place and appends a new key at the end. *)
Abbreviation dict := (list (string * Value)) (only parsing).

Fixpoint dict_set (d : dict) (k : string) (v : Value) : dict :=
  match d with
  | [] => [(k, v)]
  | (k', v') :: d' =>
      if String.eqb k' k then (k, v) :: d' else (k', v') :: dict_set d' k v
  end.

Fixpoint dict_get (d : dict) (k : string) : option Value :=
  match d with
  | [] => None
  | (k', v') :: d' => if String.eqb k' k then Some v' else dict_get d' k
  end.

Definition keys (d : dict) : list string := map fst d.

(** [bool(v)] for the values of the model. *)
Definition truthy (v : Value) : bool :=
  match v with
  | VNone => false
  | VStr s => negb (String.eqb s "")
  | VInt z => negb (Z.eqb z 0)
  | VRef _ => true
  end.

Record Object := { ob_type : ClassId; ob_dict : dict }.

(** Exception classes, with the part of the built-in hierarchy that the
    [except] clauses of the program can tell apart. *)
Inductive ExcType :=
| Exception
| ValueError
| TypeError
| ImportError
| ModuleNotFoundError
| AttributeError
| KeyError
| NotImplementedError
| FileNotFoundError
| UserException (name : string) (base : ExcType).

Fixpoint exc_issubclass (t : ExcType) (target : ExcType) : bool :=
  match t, target with
  | _, Exception => true
  | ValueError, ValueError => true
  | TypeError, TypeError => true
  | ImportError, ImportError => true
  | ModuleNotFoundError, (ModuleNotFoundError | ImportError) => true
  | AttributeError, AttributeError => true
  | KeyError, KeyError => true
  | NotImplementedError, NotImplementedError => true
  | FileNotFoundError, FileNotFoundError => true
  | UserException n b, UserException n' b' =>
      (String.eqb n n' && exc_issubclass b b') || exc_issubclass b target
  | UserException _ b, _ => exc_issubclass b target
  | _, _ => false
  end.

(** An exception instance: its class and [str(e)]. *)
Record PyExc := { exc_type : ExcType; exc_str : string }.

Definition isinstance_exc (e : PyExc) (t : ExcType) : bool :=
  exc_issubclass (exc_type e) t.

(** ** The logger *)

Inductive Level := DEBUG | INFO | WARNING | ERROR | CRITICAL.

Record LogRecord := { levelname : Level; message : string }.

(** ** The world: heap of objects and emitted log records *)

Record World := { heap : list Object; log : list LogRecord }.

Inductive Outcome (A : Type) :=
| Return (a : A) (w : World)
| Raise (e : PyExc) (w : World)
| OutOfFuel.
Arguments Return {A} a w.
Arguments Raise {A} e w.
Arguments OutOfFuel {A}.

Definition M (A : Type) : Type := World -> Outcome A.

Definition ret {A} (a : A) : M A := fun w => Return a w.

Definition raise {A} (t : ExcType) (msg : string) : M A :=
  fun w => Raise {| exc_type := t; exc_str := msg |} w.

Definition reraise {A} (e : PyExc) : M A := fun w => Raise e w.

Definition bind {A B} (m : M A) (k : A -> M B) : M B :=
  fun w =>
    match m w with
    | Return a w' => k a w'
    | Raise e w' => Raise e w'
    | OutOfFuel => OutOfFuel
    end.

(** [try: m  except t as e: handler e]; an exception that is not an instance
    of [t] passes through. *)
Definition try_except {A} (m : M A) (t : ExcType) (handler : PyExc -> M A) : M A :=
  fun w =>
    match m w with
    | Return a w' => Return a w'
    | Raise e w' => if isinstance_exc e t then handler e w' else Raise e w'
    | OutOfFuel => OutOfFuel
    end.

Definition emit (l : Level) (msg : string) : M unit :=
  fun w => Return tt {| heap := heap w; log := log w ++ [{| levelname := l; message := msg |}] |}.

#[global] Instance M_ret : MRet M := @ret.
#[global] Instance M_bind : MBind M := fun A B k m => bind m k.

(** ** What [inspect] sees of a class *)

Inductive ParameterKind :=
| POSITIONAL_ONLY
| POSITIONAL_OR_KEYWORD
| VAR_POSITIONAL
| KEYWORD_ONLY
| VAR_KEYWORD.

#[global] Instance ParameterKind_eq_dec : EqDecision ParameterKind.
Proof. solve_decision. Defined.

(** [inspect.Parameter]; [None] stands for [inspect.Parameter.empty].  An
    annotation is the class the parameter is annotated with; annotations
    that are not classes (a string that names a class defined later, a
    [typing] construct) are outside the model. *)
Module Param.
Record t := mk {
  name : string;
  kind : ParameterKind;
  annotation : option ClassId;
  default : option Value
}.
End Param.

(** The static description of a class.  [attributes] lists the names [m] for
    which the class has a method [m] (inherited ones included);
    [__abstractmethods__] lists those that are still abstract.
    [__init__] is [inspect.signature(cls.__init__).parameters], receiver
    included. *)
Record PyClass := {
  __name__ : string;
  __mro__ : list ClassId;
  __abstractmethods__ : list string;
  attributes : list string;
  __init__ : list Param.t
}.

(** What calling a class with keyword arguments does once the instance is
    allocated: argument binding and the body of [__init__].  It emits log
    records and either raises or leaves the instance with an attribute
    dictionary. *)
Record InitOutcome := {
  init_log : list LogRecord;
  init_result : PyExc + dict
}.

Inductive PyAttr :=
| AClass (c : ClassId)
| AObject.

Record PyModule := { mod_name : string; mod_dict : list (string * PyAttr) }.

(** The interpreter state the container consults: the classes, what calling
    each class does (given the classes, which a constructor may consult for
    an [isinstance] test), and the import system.  Constructors are total:
    a call either raises or finishes. *)
Record Runtime := {
  classes : ClassId -> PyClass;
  tp_call : (ClassId -> PyClass) -> ClassId -> list Object -> dict -> InitOutcome;
  find_module : string -> PyExc + PyModule
}.

Definition construct (rt : Runtime) (c : ClassId) (h : list Object) (kwargs : dict)
    : InitOutcome :=
  tp_call rt (classes rt) c h kwargs.

(** ** Library functions the container calls *)

(** [s.rsplit(sep, 1)] for a one-character separator, when [sep] occurs in
    [s]: what is before its last occurrence and what is after. *)
Fixpoint rsplit_last (sep : ascii) (s : string) : option (string * string) :=
  match s with
  | EmptyString => None
  | String c rest =>
      match rsplit_last sep rest with
      | Some (a, b) => Some (String c a, b)
      | None => if Ascii.eqb c sep then Some (EmptyString, rest) else None
      end
  end.

(** [s.rsplit('.', 1)]: the string cut at its last dot, or the string alone
    when it has none. *)
Definition rsplit_dot (s : string) : list string :=
  match rsplit_last "."%char s with
  | Some (a, b) => [a; b]
  | None => [s]
  end.

Definition mkExc (t : ExcType) (msg : string) : PyExc :=
  {| exc_type := t; exc_str := msg |}.

(** [repr] of a string without quotes or escapes in it, as identifiers and
    dotted paths are. *)
Definition repr_str (s : string) : string := "'" +:+ s +:+ "'".

Fixpoint join (sep : string) (l : list string) : string :=
  match l with
  | [] => ""
  | [x] => x
  | x :: l' => x +:+ sep +:+ join sep l'
  end.

Definition repr_list (l : list string) : string :=
  "[" +:+ join ", " (map repr_str l) +:+ "]".

Section Container.
Variable rt : Runtime.

(** [importlib.import_module(name)] with no package: a relative name is a
    [TypeError], the empty name a [ValueError]; the rest is up to the
    import system. *)
Definition import_module (name : string) : PyExc + PyModule :=
  if String.prefix "." name then
    inl (mkExc TypeError
           ("the 'package' argument is required to perform a relative import for "
            +:+ repr_str name))
  else if String.eqb name "" then inl (mkExc ValueError "Empty module name")
  else find_module rt name.

Fixpoint mod_lookup (d : list (string * PyAttr)) (k : string) : option PyAttr :=
  match d with
  | [] => None
  | (k', a) :: d' => if String.eqb k' k then Some a else mod_lookup d' k
  end.

Definition getattr (m : PyModule) (name : string) : PyExc + PyAttr :=
  match mod_lookup (mod_dict m) name with
  | Some a => inr a
  | None =>
      inl (mkExc AttributeError
             ("module " +:+ repr_str (mod_name m) +:+ " has no attribute "
              +:+ repr_str name))
  end.

(** [issubclass(a, b)] for classes without virtual subclasses: [b] is on
    the method resolution order of [a]. *)
Definition issubclass (a b : ClassId) : bool :=
  bool_decide (b ∈ __mro__ (classes rt a)).

(** [inspect.isabstract]. *)
Definition isabstract (c : ClassId) : bool :=
  match __abstractmethods__ (classes rt c) with
  | [] => false
  | _ :: _ => true
  end.

(** *** core/dependency_container.py *)

Record DependencyContainer := { _registrations : gmap string ClassId }.

(** [DependencyContainer.__init__] *)
Definition DependencyContainer_init : M DependencyContainer :=
  emit DEBUG "DependencyContainer initialized.";;
  mret {| _registrations := ∅ |}.

(** The [try] block of [register]: split the path, import the module, get
    the class from it. *)
Definition load (concrete_implementation_path : string) : PyExc + PyAttr :=
  match rsplit_dot concrete_implementation_path with
  | [module_path; class_name] =>
      match import_module module_path with
      | inl e => inl e
      | inr concrete_module => getattr concrete_module class_name
      end
  | _ => inl (mkExc ValueError "not enough values to unpack (expected 2, got 1)")
  end.

(** [DependencyContainer.register]; the result is the container after the
    call.  When it raises, the container is as it was. *)
Definition register (self : DependencyContainer) (abstraction : ClassId)
    (concrete_implementation_path : string) : M DependencyContainer :=
  match load concrete_implementation_path with
  | inl e =>
      if isinstance_exc e ImportError || isinstance_exc e AttributeError
         || isinstance_exc e ValueError
      then raise ValueError
             ("Failed to load concrete implementation "
              +:+ repr_str concrete_implementation_path
              +:+ ". Please check the path. Error: " +:+ exc_str e)
      else reraise e
  | inr AObject => raise TypeError "issubclass() arg 1 must be a class"
  | inr (AClass concrete_implementation) =>
      if negb (issubclass concrete_implementation abstraction) then
        raise ValueError
          ("Concrete implementation " +:+ __name__ (classes rt concrete_implementation)
           +:+ " does not implement abstraction "
           +:+ __name__ (classes rt abstraction) +:+ ".")
      else
        emit DEBUG ("Registered " +:+ __name__ (classes rt concrete_implementation)
                    +:+ " for " +:+ __name__ (classes rt abstraction));;
        mret {| _registrations :=
                  <[abstraction := concrete_implementation]> (_registrations self) |}
  end.

(** Calling [concrete_class] with [dependencies] as keyword arguments: a
    new object is allocated, [__init__] runs on it, and the object is the
    value of the call. *)
Definition instantiate (concrete_class : ClassId) (dependencies : dict) : M Value :=
  fun w =>
    let out := construct rt concrete_class (heap w) dependencies in
    let lg := log w ++ init_log out in
    match init_result out with
    | inl e => Raise e {| heap := heap w; log := lg |}
    | inr d =>
        Return (VRef (length (heap w)))
          {| heap := heap w ++ [{| ob_type := concrete_class; ob_dict := d |}];
             log := lg |}
    end.

Definition injectable (param : Param.t) : option ClassId :=
  match Param.kind param with
  | POSITIONAL_OR_KEYWORD => Param.annotation param
  | _ => None
  end.

(** The [for name, param in constructor_params.items()] loop of [resolve];
    [self_resolve] is [self.resolve]. *)
Fixpoint resolve_dependencies (self_resolve : ClassId -> M Value)
    (concrete_class : ClassId) (constructor_params : list Param.t)
    (dependencies : dict) : M dict :=
  match constructor_params with
  | [] => mret dependencies
  | param :: rest =>
      let name := Param.name param in
      if String.eqb name "self" then
        resolve_dependencies self_resolve concrete_class rest dependencies
      else
        dependencies ←
          match injectable param with
          | Some annotation =>
              try_except
                (v ← self_resolve annotation; mret (dict_set dependencies name v))
                ValueError
                (fun e =>
                   match Param.default param with
                   | None =>
                       raise ValueError
                         ("Cannot resolve dependency " +:+ repr_str name +:+ " for "
                          +:+ repr_str (__name__ (classes rt concrete_class))
                          +:+ ": " +:+ exc_str e)
                   | Some d =>
                       emit WARNING
                         ("Optional dependency " +:+ repr_str name +:+ " for "
                          +:+ repr_str (__name__ (classes rt concrete_class))
                          +:+ " could not be resolved, using default value.");;
                       mret (dict_set dependencies name d)
                   end)
          | None =>
              match Param.default param with
              | Some d => mret (dict_set dependencies name d)
              | None =>
                  raise ValueError
                    ("Cannot resolve dependency " +:+ repr_str name +:+ " for "
                     +:+ repr_str (__name__ (classes rt concrete_class))
                     +:+ ": Missing type hint or default value.")
              end
          end;
        resolve_dependencies self_resolve concrete_class rest dependencies
  end.

(** [DependencyContainer.resolve] *)
Fixpoint resolve (fuel : nat) (self : DependencyContainer) (abstraction : ClassId)
    : M Value :=
  match fuel with
  | 0 => fun _ => OutOfFuel
  | S fuel' =>
      let concrete_class := default abstraction (_registrations self !! abstraction) in
      if isabstract concrete_class then
        raise ValueError
          ("No concrete implementation registered for abstraction: "
           +:+ __name__ (classes rt abstraction))
      else
        let constructor_params := __init__ (classes rt concrete_class) in
        dependencies ←
          resolve_dependencies (resolve fuel' self) concrete_class
            constructor_params [];
        emit DEBUG ("Resolving " +:+ __name__ (classes rt concrete_class)
                    +:+ " with dependencies: " +:+ repr_list (keys dependencies));;
        instantiate concrete_class dependencies
  end.

(** What the loop does with one parameter that is not the receiver. *)
Definition resolve_parameter (r : ClassId → M Value) (c : ClassId)
    (param : Param.t) (dependencies : dict) : M dict :=
  resolve_dependencies r c [param] dependencies.

Definition cannot_resolve (name : string) (c : ClassId) (reason : string) : PyExc :=
  mkExc ValueError
    ("Cannot resolve dependency " +:+ repr_str name +:+ " for "
     +:+ repr_str (__name__ (classes rt c)) +:+ ": " +:+ reason).

Definition optional_warning (name : string) (c : ClassId) : LogRecord :=
  {| levelname := WARNING;
     message := "Optional dependency " +:+ repr_str name +:+ " for "
                +:+ repr_str (__name__ (classes rt c))
                +:+ " could not be resolved, using default value." |}.

Definition logged (w : World) (r : LogRecord) : World :=
  {| heap := heap w; log := log w ++ [r] |}.

(** The rest of [resolve] once the loop has reached a point: finish the
    loop over [post], log, call the class. *)
Definition finish (fuel : nat) (self : DependencyContainer) (c : ClassId) (post : list Param.t)
    (deps : dict) : M Value :=
  resolve_dependencies (resolve fuel self) c post deps ≫= λ dependencies,
  emit DEBUG ("Resolving " +:+ __name__ (classes rt c)
              +:+ " with dependencies: " +:+ repr_list (keys dependencies)) ≫= λ _,
  instantiate c dependencies.

End Container.

(** ** os.path (POSIX flavour) *)

Fixpoint rstrip_slash (s : string) : string :=
  match s with
  | EmptyString => EmptyString
  | String c rest =>
      match rstrip_slash rest with
      | EmptyString => if Ascii.eqb c "/"%char then EmptyString else String c EmptyString
      | r => String c r
      end
  end.

Fixpoint all_slashes (s : string) : bool :=
  match s with
  | EmptyString => true
  | String c rest => Ascii.eqb c "/"%char && all_slashes rest
  end.

(** [posixpath.dirname]: everything up to and including the last slash,
    with trailing slashes removed unless nothing else is left. *)
Definition dirname (p : string) : string :=
  match rsplit_last "/"%char p with
  | None => ""
  | Some (a, _) =>
      let head := a +:+ "/" in
      if all_slashes head then head else rstrip_slash head
  end.

Fixpoint endswith_slash (s : string) : bool :=
  match s with
  | EmptyString => false
  | String c EmptyString => Ascii.eqb c "/"%char
  | String _ rest => endswith_slash rest
  end.

(** [posixpath.join(a, *p)] *)
Fixpoint path_join (path : string) (p : list string) : string :=
  match p with
  | [] => path
  | b :: p' =>
      if String.prefix "/" b then path_join b p'
      else if String.eqb path "" || endswith_slash path then path_join (path +:+ b) p'
      else path_join (path +:+ "/" +:+ b) p'
  end.

(** ** The classes of the application *)

Definition self_param : Param.t :=
  Param.mk "self" POSITIONAL_OR_KEYWORD None None.

(** [inspect.signature(object.__init__)], which a class that defines no
    [__init__] of its own shows: [(self, /, *args, **kwargs)]. *)
Definition object_init_signature : list Param.t :=
  [ Param.mk "self" POSITIONAL_ONLY None None;
    Param.mk "args" VAR_POSITIONAL None None;
    Param.mk "kwargs" VAR_KEYWORD None None ].

Definition ITaskRepository_operations : list string :=
  ["get_all_tasks"; "add_task"; "get_task_by_id"; "update_task"; "delete_task"].

(** business/interfaces/ITaskRepository.py: five abstract methods, no
    constructor of its own. *)
Definition ITaskRepository_class : PyClass :=
  {| __name__ := "ITaskRepository";
     __mro__ := ["ITaskRepository"; "ABC"; "object"];
     __abstractmethods__ := ITaskRepository_operations;
     attributes := ITaskRepository_operations;
     __init__ := object_init_signature |}.

(** data/csv_task_repository.py: [__init__(self, file_path: str = None)] and
    the five operations overridden. *)
Definition CsvTaskRepository_class : PyClass :=
  {| __name__ := "CsvTaskRepository";
     __mro__ := ["CsvTaskRepository"; "ITaskRepository"; "ABC"; "object"];
     __abstractmethods__ := [];
     attributes := ITaskRepository_operations;
     __init__ := [ self_param;
                   Param.mk "file_path" POSITIONAL_OR_KEYWORD (Some "str") (Some VNone) ] |}.

(** business/task_manager_service.py:
    [__init__(self, task_repository: ITaskRepository)]. *)
Definition TaskManagerService_class : PyClass :=
  {| __name__ := "TaskManagerService";
     __mro__ := ["TaskManagerService"; "object"];
     __abstractmethods__ := [];
     attributes := ["get_all_tasks"; "get_task_by_id"; "add_new_task";
                    "mark_task_complete"; "delete_task_by_id"];
     __init__ := [ self_param;
                   Param.mk "task_repository" POSITIONAL_OR_KEYWORD
                     (Some "ITaskRepository") None ] |}.

(** A class that defines neither methods nor a constructor, as [str],
    [object] and the other built-in names are seen by [resolve]. *)
Definition plain_class (c : ClassId) : PyClass :=
  {| __name__ := c;
     __mro__ := if String.eqb c "object" then ["object"] else [c; "object"];
     __abstractmethods__ := [];
     attributes := [];
     __init__ := object_init_signature |}.

Definition TaskBuddy_classes (c : ClassId) : PyClass :=
  if String.eqb c "ITaskRepository" then ITaskRepository_class
  else if String.eqb c "CsvTaskRepository" then CsvTaskRepository_class
  else if String.eqb c "TaskManagerService" then TaskManagerService_class
  else plain_class c.

(** [type(v)] *)
Definition type_of (h : list Object) (v : Value) : ClassId :=
  match v with
  | VNone => "NoneType"
  | VStr _ => "str"
  | VInt _ => "int"
  | VRef a => match h !! a with Some o => ob_type o | None => "object" end
  end.

Definition isinstance (cls : ClassId -> PyClass) (h : list Object) (v : Value)
    (c : ClassId) : bool :=
  bool_decide (c ∈ __mro__ (cls (type_of h v))).

(** [str(v)] as an f-string prints it; the address of an object stands for
    its default [repr]. *)
Definition str_value (v : Value) : string :=
  match v with
  | VNone => "None"
  | VStr s => s
  | VInt z => pretty z
  | VRef a => "<object at " +:+ pretty a +:+ ">"
  end.

(** Binding keyword arguments to the parameters that follow the receiver,
    all of them positional-or-keyword: an unknown keyword and a missing
    argument without default are [TypeError]s. *)
Fixpoint unexpected_keyword (params : list Param.t) (kwargs : dict) : option string :=
  match kwargs with
  | [] => None
  | (k, _) :: kwargs' =>
      if existsb (fun p => String.eqb (Param.name p) k) params
      then unexpected_keyword params kwargs'
      else Some k
  end.

Fixpoint bind_each (fname : string) (params : list Param.t) (kwargs : dict)
    : PyExc + dict :=
  match params with
  | [] => inr []
  | p :: params' =>
      let arg :=
        match dict_get kwargs (Param.name p) with
        | Some v => Some v
        | None => Param.default p
        end in
      match arg with
      | None =>
          inl (mkExc TypeError
                 (fname +:+ "() missing 1 required positional argument: "
                  +:+ repr_str (Param.name p)))
      | Some v =>
          match bind_each fname params' kwargs with
          | inl e => inl e
          | inr bound => inr ((Param.name p, v) :: bound)
          end
      end
  end.

Definition bind_arguments (fname : string) (params : list Param.t) (kwargs : dict)
    : PyExc + dict :=
  match unexpected_keyword params kwargs with
  | Some k =>
      inl (mkExc TypeError
             (fname +:+ "() got an unexpected keyword argument " +:+ repr_str k))
  | None => bind_each fname params kwargs
  end.

Definition arg (bound : dict) (k : string) : Value :=
  default VNone (dict_get bound k).

Section TaskBuddy.
(** [os.path.abspath(__file__)] of data/csv_task_repository.py. *)
Variable abspath_file : string.

Definition default_file_path : string :=
  let current_dir := dirname abspath_file in
  let project_root := dirname (dirname current_dir) in
  path_join project_root ["data"; "csv"; "sample_data.csv"].

(** [CsvTaskRepository.__init__] *)
Definition CsvTaskRepository_init (file_path : Value) : InitOutcome :=
  let self_file_path :=
    if truthy file_path then file_path else VStr default_file_path in
  {| init_log :=
       [ {| levelname := DEBUG;
            message := "DEBUG - CsvTaskRepository initialized. Expected file_path: "
                       +:+ str_value self_file_path |} ];
     init_result := inr [("file_path", self_file_path)] |}.

(** [TaskManagerService.__init__] *)
Definition TaskManagerService_init (cls : ClassId -> PyClass) (h : list Object)
    (task_repository : Value) : InitOutcome :=
  if negb (isinstance cls h task_repository "ITaskRepository") then
    {| init_log := [];
       init_result :=
         inl (mkExc TypeError "task_repository must be an instance of ITaskRepository.") |}
  else
    {| init_log :=
         [ {| levelname := DEBUG;
              message := "TaskManagerService initialized with repository: "
                         +:+ __name__ (cls (type_of h task_repository)) |} ];
       init_result := inr [("_task_repository", task_repository)] |}.

Definition failed (e : PyExc) : InitOutcome :=
  {| init_log := []; init_result := inl e |}.

(** Calling a class of the application with keyword arguments. *)
Definition TaskBuddy_construct (cls : ClassId -> PyClass) (c : ClassId)
    (h : list Object) (kwargs : dict) : InitOutcome :=
  if String.eqb c "CsvTaskRepository" then
    match bind_arguments "CsvTaskRepository.__init__"
            (tail (__init__ CsvTaskRepository_class)) kwargs with
    | inl e => failed e
    | inr bound => CsvTaskRepository_init (arg bound "file_path")
    end
  else if String.eqb c "TaskManagerService" then
    match bind_arguments "TaskManagerService.__init__"
            (tail (__init__ TaskManagerService_class)) kwargs with
    | inl e => failed e
    | inr bound => TaskManagerService_init cls h (arg bound "task_repository")
    end
  else if String.eqb c "ITaskRepository" then
    failed (mkExc TypeError
              "Can't instantiate abstract class ITaskRepository with abstract methods add_task, delete_task, get_all_tasks, get_task_by_id, update_task")
  else
    match kwargs with
    | [] => {| init_log := []; init_result := inr [] |}
    | _ :: _ => failed (mkExc TypeError (c +:+ "() takes no arguments"))
    end.

(** The modules of the application that a locator can name, with the
    names bound at their top level. *)
Definition TaskBuddy_modules : list PyModule :=
  [ {| mod_name := "data.csv_task_repository";
       mod_dict := [ ("csv", AObject); ("uuid", AObject); ("os", AObject);
                     ("logging", AObject); ("List", AObject); ("Optional", AObject);
                     ("ITaskRepository", AClass "ITaskRepository");
                     ("Task", AClass "Task"); ("TaskStatus", AClass "TaskStatus");
                     ("DEBUG_MODE", AObject); ("logger", AObject);
                     ("CsvTaskRepository", AClass "CsvTaskRepository") ] |};
    {| mod_name := "business.interfaces.ITaskRepository";
       mod_dict := [ ("ABC", AClass "ABC"); ("abstractmethod", AObject);
                     ("List", AObject); ("uuid", AObject); ("Task", AClass "Task");
                     ("ITaskRepository", AClass "ITaskRepository") ] |};
    {| mod_name := "business.task_manager_service";
       mod_dict := [ ("logging", AObject); ("List", AObject); ("Optional", AObject);
                     ("uuid", AObject);
                     ("ITaskRepository", AClass "ITaskRepository");
                     ("Task", AClass "Task"); ("TaskStatus", AClass "TaskStatus");
                     ("logger", AObject);
                     ("TaskManagerService", AClass "TaskManagerService") ] |} ].

Definition TaskBuddy_find_module (name : string) : PyExc + PyModule :=
  match find (fun m => String.eqb (mod_name m) name) TaskBuddy_modules with
  | Some m => inr m
  | None => inl (mkExc ModuleNotFoundError ("No module named " +:+ repr_str name))
  end.

Definition TaskBuddy : Runtime :=
  {| classes := TaskBuddy_classes;
     tp_call := TaskBuddy_construct;
     find_module := TaskBuddy_find_module |}.

(** *** main.py *)

(** [configure_dependencies(container)] *)
Definition configure_dependencies (container : DependencyContainer)
    : M DependencyContainer :=
  emit INFO "Configuring application dependencies...";;
  container ← register TaskBuddy container "ITaskRepository"
                "data.csv_task_repository.CsvTaskRepository";
  emit INFO "Dependencies configured.";;
  mret container.

(** The wiring of [run_application]: build the container, configure it,
    ask it for the service. *)
Definition wire_application (fuel : nat) : M Value :=
  container ← DependencyContainer_init;
  container ← configure_dependencies container;
  resolve TaskBuddy fuel container "TaskManagerService".

End TaskBuddy.

(** ** data/csv_task_repository.py: the operations

    The repository object is represented by its only attribute.  The file
    system, [csv.DictReader], [uuid.UUID] and the task model of
    business/task.py (which is not among the sources) are parameters. *)

(** [try: m] followed by [except] clauses, tried in order; an exception
    raised by a handler is not caught by the clauses after it. *)
Fixpoint first_handler {A} (handlers : list (ExcType * (PyExc -> M A))) (e : PyExc)
    : option (M A) :=
  match handlers with
  | [] => None
  | (t, h) :: handlers' =>
      if isinstance_exc e t then Some (h e) else first_handler handlers' e
  end.

Definition try_excepts {A} (m : M A) (handlers : list (ExcType * (PyExc -> M A))) : M A :=
  fun w =>
    match m w with
    | Return a w' => Return a w'
    | Raise e w' =>
        match first_handler handlers e with
        | Some h => h w'
        | None => Raise e w'
        end
    | OutOfFuel => OutOfFuel
    end.

Definition lift {A} (r : PyExc + A) : M A :=
  match r with
  | inl e => reraise e
  | inr a => mret a
  end.

(** ASCII white space, as [str.strip()] removes it. *)
Definition is_space (c : ascii) : bool :=
  let n := nat_of_ascii c in
  (n =? 32) || ((9 <=? n) && (n <=? 13)) || ((28 <=? n) && (n <=? 31)).

Fixpoint lstrip (s : string) : string :=
  match s with
  | EmptyString => EmptyString
  | String c rest => if is_space c then lstrip rest else s
  end.

Fixpoint rstrip (s : string) : string :=
  match s with
  | EmptyString => EmptyString
  | String c rest =>
      match rstrip rest with
      | EmptyString => if is_space c then EmptyString else String c EmptyString
      | r => String c r
      end
  end.

Definition strip (s : string) : string := rstrip (lstrip s).

(** [f.readline()] at the start of a file opened with [newline='']. *)
Fixpoint readline (s : string) : string :=
  match s with
  | EmptyString => EmptyString
  | String c rest =>
      if Ascii.eqb c "010"%char then String c EmptyString
      else if Ascii.eqb c "013"%char then
        match rest with
        | String c' _ =>
            if Ascii.eqb c' "010"%char then String c (String c' EmptyString)
            else String c EmptyString
        | EmptyString => String c EmptyString
        end
      else String c (readline rest)
  end.

Definition upper_char (c : ascii) : ascii :=
  let n := nat_of_ascii c in
  if (97 <=? n) && (n <=? 122) then ascii_of_nat (n - 32) else c.

Fixpoint upper (s : string) : string :=
  match s with
  | EmptyString => EmptyString
  | String c rest => String (upper_char c) (upper rest)
  end.

(** A row of [csv.DictReader]: field name to value, [None] for a field the
    line was too short for. *)
Abbreviation Row := (list (string * option string)) (only parsing).

Fixpoint row_get (row : Row) (field : string) : option (option string) :=
  match row with
  | [] => None
  | (k, v) :: row' => if String.eqb k field then Some v else row_get row' field
  end.

Record CsvTaskRepository := { file_path : string }.

Section CsvRepository.
Context {UUID TaskStatus Task : Type} `{EqDecision UUID}.

(** [os.path.exists] *)
Variable path_exists : string -> bool.
(** [open(path, mode='r', newline='', encoding='utf-8')]: the text of the
    file, or what opening it raises. *)
Variable open_text : string -> PyExc + string.
(** [csv.DictReader(f)]: [reader.fieldnames] (empty when there is none)
    and the rows. *)
Variable fieldnames : string -> list string.
Variable rows : string -> list Row.
(** [uuid.UUID(s)] *)
Variable UUID_of : string -> PyExc + UUID.
Variable str_UUID : UUID -> string.
(** [TaskStatus[name]]; [None] is a [KeyError]. *)
Variable TaskStatus_getitem : string -> option TaskStatus.
(** [Task(title=..., status=..., task_id=...)], [task.id], [task.title] *)
Variable Task_init : string -> TaskStatus -> UUID -> PyExc + Task.
Variable Task_id : Task -> UUID.
Variable Task_title : Task -> string.
(** [repr] of a row, of a list of strings, of the set of expected
    headers. *)
Variable repr_row : Row -> string.
Variable repr_strs : list string -> string.
Variable repr_expected_headers : string.

Definition required_fields : list string := ["id"; "title"; "status"].

(** The body of the [for] loop for one row: the task to append, if any,
    and the record it logs, if any. *)
Definition read_row (row_num : nat) (row : Row) : option Task * option LogRecord :=
  let line := pretty (row_num + 2) in
  match row_get row "id", row_get row "title", row_get row "status" with
  | Some (Some id_), Some (Some title), Some (Some status_) =>
      let task_id_str := strip id_ in
      let title_str := strip title in
      let status_raw_str := strip status_ in
      if String.eqb task_id_str "" || String.eqb title_str ""
         || String.eqb status_raw_str ""
      then
        (None, Some {| levelname := WARNING;
                       message := "WARNING - Skipping row " +:+ line
                                  +:+ " due to empty required fields after strip: "
                                  +:+ repr_row row |})
      else
        let failed_with (e : PyExc) :=
          if isinstance_exc e ValueError then
            (None, Some {| levelname := ERROR;
                           message := "ERROR - Data conversion error in row " +:+ line
                                      +:+ " (ID/Status): " +:+ exc_str e +:+ ". Row: "
                                      +:+ repr_row row |})
          else if isinstance_exc e KeyError then
            (None, Some {| levelname := ERROR;
                           message := "ERROR - Missing expected column in row " +:+ line
                                      +:+ ": " +:+ exc_str e +:+ ". Row: "
                                      +:+ repr_row row |})
          else
            (None, Some {| levelname := ERROR;
                           message := "ERROR - Unexpected error processing row " +:+ line
                                      +:+ ": " +:+ exc_str e +:+ ". Row: "
                                      +:+ repr_row row |}) in
        match UUID_of task_id_str with
        | inl e => failed_with e
        | inr task_id =>
            match TaskStatus_getitem (upper status_raw_str) with
            | None => failed_with (mkExc KeyError (repr_str (upper status_raw_str)))
            | Some status =>
                match Task_init title_str status task_id with
                | inl e => failed_with e
                | inr task => (Some task, None)
                end
            end
        end
  | _, _, _ =>
      (None, Some {| levelname := WARNING;
                     message := "WARNING - Skipping row " +:+ line
                                +:+ " (including header) due to missing or None values for required fields: "
                                +:+ repr_row row |})
  end.

Fixpoint read_rows (row_num : nat) (rs : list Row) (tasks : list Task)
    : M (list Task) :=
  match rs with
  | [] => mret tasks
  | row :: rs' =>
      match read_row row_num row with
      | (t, r) =>
          match r with
          | Some r => emit (levelname r) (message r)
          | None => mret tt
          end;;
          read_rows (S row_num) rs'
            (match t with Some task => tasks ++ [task] | None => tasks end)
      end
  end.

(** [CsvTaskRepository.get_all_tasks] *)
Definition get_all_tasks (self : CsvTaskRepository) : M (list Task) :=
  try_excepts
    (if negb (path_exists (file_path self)) then
       emit WARNING ("WARNING - CSV file not found at: " +:+ file_path self);;
       raise FileNotFoundError ("CSV file not found at: " +:+ file_path self)
     else
       csvfile ← lift (open_text (file_path self));
       emit DEBUG ("DEBUG - Successfully opened CSV file: " +:+ file_path self);;
       let first_line_content := strip (readline csvfile) in
       if String.eqb first_line_content "" then
         emit WARNING ("WARNING - CSV file " +:+ repr_str (file_path self)
                       +:+ " is empty or contains only whitespace.");;
         mret []
       else
         match fieldnames csvfile with
         | [] =>
             emit ERROR ("ERROR - CSV file " +:+ repr_str (file_path self)
                         +:+ " has no header row or is malformed. Content: "
                         +:+ repr_str first_line_content);;
             mret []
         | names =>
             emit DEBUG ("DEBUG - CSV headers found: " +:+ repr_strs names);;
             if negb (forallb (fun f => bool_decide (f ∈ names)) required_fields) then
               emit ERROR ("ERROR - Missing expected headers in CSV. Expected: "
                           +:+ repr_expected_headers +:+ ", Found: " +:+ repr_strs names);;
               mret []
             else
               tasks ← read_rows 0 (rows csvfile) [];
               emit INFO ("INFO - Successfully loaded " +:+ pretty (length tasks)
                          +:+ " tasks from " +:+ file_path self);;
               mret tasks
         end)
    [ (FileNotFoundError, fun e =>
         emit WARNING ("WARNING - CSV file not found when attempting to read: "
                       +:+ file_path self);;
         reraise e);
      (Exception, fun e =>
         emit CRITICAL ("CRITICAL - An unhandled error occurred while processing CSV file "
                        +:+ repr_str (file_path self) +:+ ": " +:+ exc_str e);;
         reraise e) ].

(** The [for task in all_tasks] loop of [get_task_by_id]. *)
Fixpoint find_task (all_tasks : list Task) (task_id : UUID) : option Task :=
  match all_tasks with
  | [] => None
  | task :: all_tasks' =>
      if decide (Task_id task = task_id) then Some task
      else find_task all_tasks' task_id
  end.

(** [CsvTaskRepository.get_task_by_id] *)
Definition get_task_by_id (self : CsvTaskRepository) (task_id : UUID) : M Task :=
  emit DEBUG ("DEBUG - Attempting to retrieve task with ID: " +:+ str_UUID task_id);;
  all_tasks ← get_all_tasks self;
  match find_task all_tasks task_id with
  | Some task =>
      emit INFO ("INFO - Found task with ID " +:+ str_UUID task_id +:+ ": "
                 +:+ Task_title task);;
      mret task
  | None =>
      emit WARNING ("WARNING - Task with ID " +:+ repr_str (str_UUID task_id)
                    +:+ " not found in " +:+ file_path self +:+ ".");;
      raise ValueError ("Task with ID " +:+ repr_str (str_UUID task_id) +:+ " not found.")
  end.

(** [CsvTaskRepository.add_task] *)
Definition add_task (self : CsvTaskRepository) (task : Task) : M unit :=
  raise NotImplementedError "add_task is not implemented for CsvTaskRepository yet.".

(** [CsvTaskRepository.update_task] *)
Definition update_task (self : CsvTaskRepository) (task : Task) : M unit :=
  raise NotImplementedError "update_task is not implemented for CsvTaskRepository yet.".

(** [CsvTaskRepository.delete_task] *)
Definition delete_task (self : CsvTaskRepository) (task_id : UUID) : M unit :=
  raise NotImplementedError "delete_task is not implemented for CsvTaskRepository yet.".

End CsvRepository.

(** ** Further classes, to run the container on

    Small classes in the style of the application's, used as concrete inputs.
    A class is given by its description and by what calling it does. *)

Record ClassDef := {
  cd_id : ClassId;
  cd_class : PyClass;
  cd_call : (ClassId -> PyClass) -> list Object -> dict -> InitOutcome
}.

Definition lookup_class (defs : list ClassDef) (c : ClassId) : option ClassDef :=
  find (fun d => String.eqb (cd_id d) c) defs.

(** [base] with the classes [defs] and the modules [mods] added. *)
Definition extend_runtime (base : Runtime) (defs : list ClassDef) (mods : list PyModule)
    : Runtime :=
  {| classes := fun c =>
       match lookup_class defs c with
       | Some d => cd_class d
       | None => classes base c
       end;
     tp_call := fun cls c =>
       match lookup_class defs c with
       | Some d => cd_call d cls
       | None => tp_call base cls c
       end;
     find_module := fun name =>
       match find (fun m => String.eqb (mod_name m) name) mods with
       | Some m => inr m
       | None => find_module base name
       end |}.

(** A constructor that stores each argument in the attribute of its name. *)
Definition stores_arguments (cname : string) (params : list Param.t)
    (_ : ClassId -> PyClass) (_ : list Object) (kwargs : dict) : InitOutcome :=
  {| init_log := [];
     init_result := bind_arguments (cname +:+ ".__init__") params kwargs |}.

(** A constructor [def __init__(self): raise e]. *)
Definition always_raises (cname : string) (e : PyExc) (_ : ClassId -> PyClass)
    (_ : list Object) (kwargs : dict) : InitOutcome :=
  {| init_log := [];
     init_result :=
       match bind_arguments (cname +:+ ".__init__") [] kwargs with
       | inl e' => inl e'
       | inr _ => inl e
       end |}.

Definition simple_class (cname : string) (params : list Param.t) : ClassDef :=
  {| cd_id := cname;
     cd_class := {| __name__ := cname; __mro__ := [cname; "object"];
                    __abstractmethods__ := []; attributes := [];
                    __init__ := self_param :: params |};
     cd_call := stores_arguments cname params |}.

(** A subclass of [ITaskRepository] that overrides its five operations. *)
Definition repository_class (cname : string) (params : list Param.t) : ClassDef :=
  {| cd_id := cname;
     cd_class := {| __name__ := cname;
                    __mro__ := [cname; "ITaskRepository"; "ABC"; "object"];
                    __abstractmethods__ := [];
                    attributes := ITaskRepository_operations;
                    __init__ := self_param :: params |};
     cd_call := stores_arguments cname params |}.

Definition failing_class (cname : string) (e : PyExc) : ClassDef :=
  {| cd_id := cname;
     cd_class := {| __name__ := cname; __mro__ := [cname; "object"];
                    __abstractmethods__ := []; attributes := [];
                    __init__ := [self_param] |};
     cd_call := always_raises cname e |}.

Definition typed (name : string) (annotation : ClassId) : Param.t :=
  Param.mk name POSITIONAL_OR_KEYWORD (Some annotation) None.

Definition typed_default (name : string) (annotation : ClassId) (d : Value) : Param.t :=
  Param.mk name POSITIONAL_OR_KEYWORD (Some annotation) (Some d).

(** [class PartialRepository(ITaskRepository)] that overrides
    [get_all_tasks] only: a subclass of the contract that leaves four of its
    operations abstract. *)
Definition PartialRepository : ClassDef :=
  {| cd_id := "PartialRepository";
     cd_class := {| __name__ := "PartialRepository";
                    __mro__ := ["PartialRepository"; "ITaskRepository"; "ABC"; "object"];
                    __abstractmethods__ :=
                      ["add_task"; "get_task_by_id"; "update_task"; "delete_task"];
                    attributes := ITaskRepository_operations;
                    __init__ := object_init_signature |};
     cd_call := fun _ _ _ =>
       {| init_log := [];
          init_result :=
            inl (mkExc TypeError
                   "Can't instantiate abstract class PartialRepository with abstract methods add_task, delete_task, get_task_by_id, update_task") |} |}.

(** [class InMemoryRepository(ITaskRepository)] with [__init__(self)] and
    the five operations overridden. *)
Definition InMemoryRepository : ClassDef :=
  {| cd_id := "InMemoryRepository";
     cd_class := {| __name__ := "InMemoryRepository";
                    __mro__ := ["InMemoryRepository"; "ITaskRepository"; "ABC"; "object"];
                    __abstractmethods__ := [];
                    attributes := ITaskRepository_operations;
                    __init__ := [self_param] |};
     cd_call := stores_arguments "InMemoryRepository" [] |}.

(** A class with the five operations of the contract that does not inherit
    from it. *)
Definition DuckRepository : ClassDef :=
  {| cd_id := "DuckRepository";
     cd_class := {| __name__ := "DuckRepository";
                    __mro__ := ["DuckRepository"; "object"];
                    __abstractmethods__ := [];
                    attributes := ITaskRepository_operations;
                    __init__ := [self_param] |};
     cd_call := stores_arguments "DuckRepository" [] |}.

Definition boom : PyExc := mkExc ValueError "boom".
Definition disk_full : PyExc := mkExc (UserException "OSError" Exception) "disk full".

Definition example_classes : list ClassDef :=
  [ PartialRepository; InMemoryRepository; DuckRepository;
    (* class Inner:  def __init__(self): raise ValueError("boom") *)
    failing_class "Inner" boom;
    (* class Outer:  def __init__(self, dep: Inner) *)
    simple_class "Outer" [typed "dep" "Inner"];
    (* class OuterOpt:  def __init__(self, dep: Inner = None) *)
    simple_class "OuterOpt" [typed_default "dep" "Inner" VNone];
    (* class Disk:  def __init__(self): raise OSError("disk full") *)
    failing_class "Disk" disk_full;
    (* class Archive:  def __init__(self, disk: Disk = None) *)
    simple_class "Archive" [typed_default "disk" "Disk" VNone];
    (* class CachingRepository(ITaskRepository):
         def __init__(self, inner: ITaskRepository)
       a decorator of the contract, with the five operations *)
    repository_class "CachingRepository" [typed "inner" "ITaskRepository"];
    (* class BufferedRepository(ITaskRepository):
         def __init__(self, size=16, inner: ITaskRepository = None) *)
    repository_class "BufferedRepository"
      [ Param.mk "size" POSITIONAL_OR_KEYWORD None (Some (VInt 16));
        typed_default "inner" "ITaskRepository" VNone ];
    (* class AuditedRepository(ITaskRepository):
         def __init__(self, audit_log, inner: ITaskRepository) *)
    repository_class "AuditedRepository"
      [ Param.mk "audit_log" POSITIONAL_OR_KEYWORD None None;
        typed "inner" "ITaskRepository" ];
    (* class Dashboard:  def __init__(self, repo: ITaskRepository = None) *)
    simple_class "Dashboard" [typed_default "repo" "ITaskRepository" VNone];
    (* class Report:  def __init__(self, *, repo: InMemoryRepository = None) *)
    {| cd_id := "Report";
       cd_class := {| __name__ := "Report"; __mro__ := ["Report"; "object"];
                      __abstractmethods__ := []; attributes := [];
                      __init__ := [ self_param;
                                    Param.mk "repo" KEYWORD_ONLY
                                      (Some "InMemoryRepository") (Some VNone) ] |};
       cd_call := stores_arguments "Report"
                    [Param.mk "repo" KEYWORD_ONLY (Some "InMemoryRepository") (Some VNone)] |};
    (* class Legacy:  def __init__(self, level=1, /) -- both positional-only;
       a call with level as a keyword is a TypeError *)
    {| cd_id := "Legacy";
       cd_class := {| __name__ := "Legacy"; __mro__ := ["Legacy"; "object"];
                      __abstractmethods__ := []; attributes := [];
                      __init__ := [ Param.mk "self" POSITIONAL_ONLY None None;
                                    Param.mk "level" POSITIONAL_ONLY None (Some (VInt 1)) ] |};
       cd_call := fun _ _ kwargs =>
         {| init_log := [];
            init_result :=
              match kwargs with
              | [] => inr [("level", VInt 1)]
              | (k, _) :: _ =>
                  inl (mkExc TypeError
                         ("Legacy.__init__() got some positional-only arguments passed as keyword arguments: "
                          +:+ repr_str k))
              end |} |};
    (* class Export:  def __init__(self, *, repo: InMemoryRepository) *)
    {| cd_id := "Export";
       cd_class := {| __name__ := "Export"; __mro__ := ["Export"; "object"];
                      __abstractmethods__ := []; attributes := [];
                      __init__ := [ self_param;
                                    Param.mk "repo" KEYWORD_ONLY
                                      (Some "InMemoryRepository") None ] |};
       cd_call := stores_arguments "Export"
                    [Param.mk "repo" KEYWORD_ONLY (Some "InMemoryRepository") None] |} ].

Definition example_modules : list PyModule :=
  [ {| mod_name := "tests.fakes";
       mod_dict := [ ("ITaskRepository", AClass "ITaskRepository");
                     ("PartialRepository", AClass "PartialRepository");
                     ("InMemoryRepository", AClass "InMemoryRepository");
                     ("DuckRepository", AClass "DuckRepository");
                     ("CachingRepository", AClass "CachingRepository");
                     ("BufferedRepository", AClass "BufferedRepository");
                     ("AuditedRepository", AClass "AuditedRepository");
                     ("logger", AObject) ] |} ].

Definition Examples : Runtime :=
  extend_runtime (TaskBuddy "/srv/taskbuddy_project/data/csv_task_repository.py")
    example_classes example_modules.

Definition empty_container : DependencyContainer := {| _registrations := ∅ |}.

(** ** Auxiliary notions for the statements *)

Definition fresh_world : World := {| heap := []; log := [] |}.

Definition extends (w w' : World) : Prop :=
  heap w `prefix_of` heap w' ∧ log w `prefix_of` log w'.

(** The world an outcome ends in extends [w]. *)
Definition grows {A} (w : World) (o : Outcome A) : Prop :=
  match o with
  | Return _ w' | Raise _ w' => extends w w'
  | OutOfFuel => True
  end.


(** The design document's notion of conformance: the class [T] implements
    every operation the contract [C] declares, that is, it has a method of
    that name which is not abstract. *)
Definition structurally_satisfies (rt : Runtime) (T C : ClassId) : Prop :=
  ∀ m, m ∈ __abstractmethods__ (classes rt C) →
       m ∈ attributes (classes rt T) ∧ m ∉ __abstractmethods__ (classes rt T).

(** The containers that [register] calls build, starting from an empty
    one. *)
Inductive configured (rt : Runtime) : DependencyContainer -> Prop :=
| configured_empty : configured rt empty_container
| configured_register self C path w self' w' :
    configured rt self ->
    register rt self C path w = Return self' w' ->
    configured rt self'.

(** The derived dependency graph: [A] depends on [D] when the class that
    [A] resolves to is not abstract and its constructor has a parameter,
    other than [self], that is positional-or-keyword and annotated with
    [D]. *)
Definition depends_on (rt : Runtime) (self : DependencyContainer) (A D : ClassId)
    : Prop :=
  let T := default A (_registrations self !! A) in
  isabstract rt T = false
  ∧ ∃ p, p ∈ __init__ (classes rt T) ∧ Param.name p ≠ "self" ∧ injectable p = Some D.

(** The part of the graph that a request for [A] can reach. *)
Definition request_graph (rt : Runtime) (self : DependencyContainer) (A : ClassId)
    (X Y : ClassId) : Prop :=
  rtc (depends_on rt self) A X ∧ depends_on rt self X Y.


(** From [n] units of fuel on, [resolve(A)] reaches an outcome. *)
Definition terminates_from (rt : Runtime) (self : DependencyContainer) (n : nat)
    (A : ClassId) : Prop :=
  ∀ fuel w, n ≤ fuel → resolve rt fuel self A w ≠ OutOfFuel.

(** A set of classes that the loop follows without end: every member has a
    typed parameter leading to a member, and the parameters before it never
    raise. *)
Definition followed_forever (rt : Runtime) (self : DependencyContainer)
    (S : ClassId → Prop) : Prop :=
  ∀ X, S X →
    let T := default X (_registrations self !! X) in
    isabstract rt T = false
    ∧ ∃ pre p post D,
        __init__ (classes rt T) = pre ++ p :: post
        ∧ (∀ fuel deps w e w',
             resolve_dependencies rt (resolve rt fuel self) T pre deps w ≠ Raise e w')
        ∧ Param.name p ≠ "self"
        ∧ injectable p = Some D
        ∧ S D.

(** Containers used as concrete inputs. *)
Definition csv_container : DependencyContainer :=
  {| _registrations := {[ "ITaskRepository" := "CsvTaskRepository" ]} |}.

Definition memory_container : DependencyContainer :=
  {| _registrations := {[ "ITaskRepository" := "InMemoryRepository" ]} |}.

Definition caching_container : DependencyContainer :=
  {| _registrations := {[ "ITaskRepository" := "CachingRepository" ]} |}.

Definition buffered_container : DependencyContainer :=
  {| _registrations := {[ "ITaskRepository" := "BufferedRepository" ]} |}.

Definition audited_container : DependencyContainer :=
  {| _registrations := {[ "ITaskRepository" := "AuditedRepository" ]} |}.

(** A stand-in for the file system, the CSV reader and the task model, to
    run the repository on: one file with a header and one task. *)
Definition sample_path : string := "data/csv/sample_data.csv".
Definition sample_id : string := "f0a3e8b1-1d2c-4e5f-8a9b-0c1d2e3f4a5b".

Definition sample_exists (p : string) : bool := String.eqb p sample_path.

Definition sample_open (p : string) : PyExc + string :=
  if String.eqb p sample_path then inr "id,title,status"
  else inl (mkExc FileNotFoundError ("[Errno 2] No such file or directory: " +:+ repr_str p)).

Definition sample_fieldnames (_ : string) : list string := ["id"; "title"; "status"].

Definition sample_rows (_ : string) : list (list (string * option string)) :=
  [ [ ("id", Some sample_id); ("title", Some "Call plumber for leaky faucet");
      ("status", Some "pending") ] ].

Definition sample_UUID_of (s : string) : PyExc + string :=
  if String.length s =? 36 then inr s
  else inl (mkExc ValueError "badly formed hexadecimal UUID string").

Definition sample_status (name : string) : option string :=
  if bool_decide (name ∈ ["PENDING"; "COMPLETE"; "OVERDUE"]) then Some name else None.

Definition sample_Task_init (title status task_id : string)
    : PyExc + (string * string * string) :=
  inr (task_id, title, status).

Definition sample_repository : CsvTaskRepository := {| file_path := sample_path |}.

(** The world after a failed attempt to build [c] without arguments. *)
Definition after_resolving (c : string) : World :=
  {| heap := [];
     log := [ {| levelname := DEBUG;
                 message := "Resolving " +:+ c +:+ " with dependencies: []" |} ] |}.

(** The objects the wiring creates. *)
Definition csv_instance (abspath_file : string) : Object :=
  {| ob_type := "CsvTaskRepository";
     ob_dict := [("file_path", VStr (default_file_path abspath_file))] |}.

Definition service_instance (repo : nat) : Object :=
  {| ob_type := "TaskManagerService";
     ob_dict := [("_task_repository", VRef repo)] |}.

Definition wiring_rank (X : ClassId) : nat :=
  if String.eqb X "TaskManagerService" then 2
  else if String.eqb X "ITaskRepository" then 1 else 0.


(** * The rest of the code *)

(** ** Notions for the container's further properties *)

(** The names of the parameters the loop gives an argument to. *)
Definition argument_names (params : list Param.t) : list string :=
  filter (fun n => n ≠ "self") (map Param.name params).

(** A parameter that the loop settles without asking the container: the
    receiver, or one that is not injected and has a default. *)
Definition settled_by_default (p : Param.t) : Prop :=
  Param.name p = "self" ∨ (injectable p = None ∧ is_Some (Param.default p)).

(** The keyword arguments made of the defaults of [params], the receiver
    left out. *)
Fixpoint defaults_of (params : list Param.t) (dependencies : dict) : dict :=
  match params with
  | [] => dependencies
  | p :: rest =>
      if String.eqb (Param.name p) "self" then defaults_of rest dependencies
      else
        match Param.default p with
        | Some d => defaults_of rest (dict_set dependencies (Param.name p) d)
        | None => defaults_of rest dependencies
        end
  end.

(** [c in s] for a character. *)
Fixpoint occurs (c : ascii) (s : string) : bool :=
  match s with
  | EmptyString => false
  | String c' rest => Ascii.eqb c' c || occurs c rest
  end.

(** The error of [register] for a locator that cannot be loaded. *)
Definition failed_to_load (path reason : string) : PyExc :=
  mkExc ValueError
    ("Failed to load concrete implementation " +:+ repr_str path
     +:+ ". Please check the path. Error: " +:+ reason).

(** ** Notions for the CSV repository's further properties *)

Section CsvRows.
Context {UUID TaskStatus Task : Type}.
Variable UUID_of : string -> PyExc + UUID.
Variable TaskStatus_getitem : string -> option TaskStatus.
Variable Task_init : string -> TaskStatus -> UUID -> PyExc + Task.

(** The task a row stands for, if it stands for one: the three cells are
    there and not blank, the id parses, the status names a member, the
    task can be built. *)
Definition row_task (row : Row) : option Task :=
  match row_get row "id", row_get row "title", row_get row "status" with
  | Some (Some id_), Some (Some title), Some (Some status_) =>
      if String.eqb (strip id_) "" || String.eqb (strip title) ""
         || String.eqb (strip status_) ""
      then None
      else
        match UUID_of (strip id_) with
        | inl _ => None
        | inr task_id =>
            match TaskStatus_getitem (upper (strip status_)) with
            | None => None
            | Some status =>
                match Task_init (strip title) status task_id with
                | inl _ => None
                | inr task => Some task
                end
            end
        end
  | _, _, _ => None
  end.
End CsvRows.

(** ** business/task_manager_service.py

    The repository object that the service holds is represented by its five
    methods, bound to it.  Task objects are values of the model; the task
    model of business/task.py (not among the sources) is a parameter. *)

Record Repository (UUID Task : Type) := {
  repo_get_all_tasks : M (list Task);
  repo_get_task_by_id : UUID -> M Task;
  repo_add_task : Task -> M unit;
  repo_update_task : Task -> M unit;
  repo_delete_task : UUID -> M unit
}.
Arguments repo_get_all_tasks {UUID Task} _.
Arguments repo_get_task_by_id {UUID Task} _ _.
Arguments repo_add_task {UUID Task} _ _.
Arguments repo_update_task {UUID Task} _ _.
Arguments repo_delete_task {UUID Task} _ _.

Record TaskManagerService (UUID Task : Type) := {
  _task_repository : Repository UUID Task
}.
Arguments _task_repository {UUID Task} _.

Section Service.
Context {UUID Task : Type}.
(** [Task(title=title, status=TaskStatus.PENDING)] *)
Variable Task_pending : string -> PyExc + Task.
(** [task.mark_complete()]: the task afterwards, or what it raises. *)
Variable mark_complete : Task -> PyExc + Task.
(** [bool(task)], [str(task)], [str(task_id)] *)
Variable Task_truthy : Task -> bool.
Variable str_Task : Task -> string.
Variable str_UUID : UUID -> string.

Implicit Types (self : TaskManagerService UUID Task).

(** [TaskManagerService.get_all_tasks] *)
Definition TaskManagerService_get_all_tasks self : M (list Task) :=
  emit INFO "Retrieving all tasks from repository.";;
  try_excepts (repo_get_all_tasks (_task_repository self))
    [ (Exception, fun e =>
         emit ERROR ("Error retrieving all tasks: " +:+ exc_str e);;
         mret []) ].

(** [TaskManagerService.get_task_by_id] *)
Definition TaskManagerService_get_task_by_id self (task_id : UUID) : M (option Task) :=
  emit INFO ("Retrieving task with ID: " +:+ str_UUID task_id);;
  try_excepts
    (task ← repo_get_task_by_id (_task_repository self) task_id; mret (Some task))
    [ (ValueError, fun e =>
         emit WARNING ("Task with ID " +:+ str_UUID task_id +:+ " not found: "
                       +:+ exc_str e);;
         mret None);
      (Exception, fun e =>
         emit ERROR ("Error retrieving task by ID " +:+ str_UUID task_id +:+ ": "
                     +:+ exc_str e);;
         mret None) ].

(** [TaskManagerService.add_new_task] *)
Definition TaskManagerService_add_new_task self (title : string) : M Task :=
  emit INFO ("Attempting to add new task: '" +:+ title +:+ "'");;
  new_task ← lift (Task_pending title);
  try_excepts
    (repo_add_task (_task_repository self) new_task;;
     emit INFO ("Successfully added task: " +:+ str_Task new_task);;
     mret new_task)
    [ (Exception, fun e =>
         emit ERROR ("Error adding new task '" +:+ title +:+ "': "
                     +:+ exc_str e);;
         reraise e) ].

(** [TaskManagerService.mark_task_complete] *)
Definition TaskManagerService_mark_task_complete self (task_id : UUID) : M bool :=
  emit INFO ("Attempting to mark task " +:+ str_UUID task_id +:+ " as complete.");;
  task ← TaskManagerService_get_task_by_id self task_id;
  let not_found :=
    emit WARNING ("Task " +:+ str_UUID task_id +:+ " not found for marking complete.");;
    mret false in
  match task with
  | Some task =>
      if Task_truthy task then
        task ← lift (mark_complete task);
        try_excepts
          (repo_update_task (_task_repository self) task;;
           emit INFO ("Task " +:+ str_UUID task_id +:+ " marked as complete.");;
           mret true)
          [ (Exception, fun e =>
               emit ERROR ("Error updating task " +:+ str_UUID task_id
                           +:+ " to complete: " +:+ exc_str e);;
               mret false) ]
      else not_found
  | None => not_found
  end.

(** [TaskManagerService.delete_task_by_id] *)
Definition TaskManagerService_delete_task_by_id self (task_id : UUID) : M bool :=
  emit INFO ("Attempting to delete task with ID: " +:+ str_UUID task_id);;
  try_excepts
    (repo_delete_task (_task_repository self) task_id;;
     emit INFO ("Task " +:+ str_UUID task_id +:+ " deleted successfully.");;
     mret true)
    [ (ValueError, fun e =>
         emit WARNING ("Task " +:+ str_UUID task_id +:+ " not found for deletion: "
                       +:+ exc_str e);;
         mret false);
      (Exception, fun e =>
         emit ERROR ("Error deleting task " +:+ str_UUID task_id +:+ ": "
                     +:+ exc_str e);;
         mret false) ].

End Service.

(** The CSV repository as the repository of a service: its five methods. *)
Section CsvBackend.
Context {UUID TaskStatus Task : Type} `{EqDecision UUID}.
Variable path_exists : string -> bool.
Variable open_text : string -> PyExc + string.
Variable fieldnames : string -> list string.
Variable rows : string -> list Row.
Variable UUID_of : string -> PyExc + UUID.
Variable str_UUID : UUID -> string.
Variable TaskStatus_getitem : string -> option TaskStatus.
Variable Task_init : string -> TaskStatus -> UUID -> PyExc + Task.
Variable Task_id : Task -> UUID.
Variable Task_title : Task -> string.
Variable repr_row : Row -> string.
Variable repr_strs : list string -> string.
Variable repr_expected_headers : string.

Definition CsvTaskRepository_methods (self : CsvTaskRepository) : Repository UUID Task :=
  {| repo_get_all_tasks :=
       get_all_tasks path_exists open_text fieldnames rows UUID_of TaskStatus_getitem
         Task_init repr_row repr_strs repr_expected_headers self;
     repo_get_task_by_id :=
       get_task_by_id path_exists open_text fieldnames rows UUID_of str_UUID
         TaskStatus_getitem Task_init Task_id Task_title repr_row repr_strs
         repr_expected_headers self;
     repo_add_task := add_task self;
     repo_update_task := update_task self;
     repo_delete_task := delete_task self |}.

Definition csv_service (self : CsvTaskRepository) : TaskManagerService UUID Task :=
  {| _task_repository := CsvTaskRepository_methods self |}.
End CsvBackend.

(** ** main.py: [run_application]

    [sys.exit] ends the process from inside the handler of the first [try];
    nothing of [run_application] catches it, so a run is represented by
    what it printed on the standard output and by the exit status, if the
    process was ended. *)

Record Run := { printed : list string; exit_status : option Z }.

Section Application.
Context {Task : Type}.
(** [os.path.abspath(__file__)] of data/csv_task_repository.py. *)
Variable abspath_file : string.
(** [task_service.get_all_tasks()] on the object the container returned,
    and [str(task)]. *)
Variable call_get_all_tasks : Value -> M (list Task).
Variable str_Task : Task -> string.

(** [for task in tasks: logger.info(f"  - {task}")] *)
Fixpoint log_tasks (tasks : list Task) : M unit :=
  match tasks with
  | [] => mret tt
  | task :: tasks' => emit INFO ("  - " +:+ str_Task task);; log_tasks tasks'
  end.

(** [run_application(current_debug_mode)] *)
Definition run_application (fuel : nat) (current_debug_mode : string) : M Run :=
  emit INFO "TaskBuddy application starting...";;
  emit INFO ("Application running in " +:+ current_debug_mode +:+ " mode.");;
  container ← DependencyContainer_init;
  container ← configure_dependencies abspath_file container;
  resolved ← try_excepts
    (task_service ← resolve (TaskBuddy abspath_file) fuel container "TaskManagerService";
     emit INFO ("Main service '" +:+ __name__ (TaskBuddy_classes "TaskManagerService")
                +:+ "' resolved with its dependencies.");;
     mret (inr task_service))
    [ (Exception, fun e =>
         emit CRITICAL ("A critical error occurred during service resolution: "
                        +:+ exc_str e);;
         mret (inl e)) ];
  match resolved with
  | inl e =>
      mret {| printed :=
                [ String "010"%char
                    ("FATAL ERROR: Could not initialize application services. Error: "
                     +:+ exc_str e) ];
              exit_status := Some 1%Z |}
  | inr task_service =>
      try_excepts
        (tasks ← call_get_all_tasks task_service;
         emit INFO ("Successfully loaded " +:+ pretty (length tasks) +:+ " tasks.");;
         log_tasks tasks)
        [ (Exception, fun e =>
             emit ERROR ("An error occurred during application run: " +:+ exc_str e)) ];;
      emit INFO "TaskBuddy application finished.";;
      mret {| printed := []; exit_status := None |}
  end.
End Application.

(** The records that end the log of a run that loaded [tasks]. *)
Definition loaded_records {Task} (str_Task : Task -> string) (tasks : list Task)
    : list LogRecord :=
  {| levelname := INFO;
     message := "Successfully loaded " +:+ pretty (length tasks) +:+ " tasks." |}
  :: map (fun task => {| levelname := INFO; message := "  - " +:+ str_Task task |}) tasks
  ++ [ {| levelname := INFO; message := "TaskBuddy application finished." |} ].

(** ** config/logging_setup.py

    Of the [logging] module, the state that [setup_logging] reads and
    writes: the level and the handlers of the root logger and the levels
    set on named loggers.  Handlers are objects, compared by identity;
    [created] counts the handlers made so far and names the next one. *)

Record Handler := {
  handler_id : nat;
  is_StreamHandler : bool;
  handler_formatter : option string
}.

Record Logging := {
  root_level : Level;
  root_handlers : list Handler;
  logger_levels : gmap string Level;
  created : nat
}.

(** [Logger.removeHandler(hdlr)]:
    [if hdlr in self.handlers: self.handlers.remove(hdlr)]. *)
Fixpoint removeHandler (hdlr : Handler) (handlers : list Handler) : list Handler :=
  match handlers with
  | [] => []
  | h :: rest =>
      if handler_id h =? handler_id hdlr then rest else h :: removeHandler hdlr rest
  end.

(** [Logger.addHandler(hdlr)]:
    [if not (hdlr in self.handlers): self.handlers.append(hdlr)]. *)
Definition addHandler (hdlr : Handler) (handlers : list Handler) : list Handler :=
  if existsb (fun h => handler_id h =? handler_id hdlr) handlers then handlers
  else handlers ++ [hdlr].

(** [for handler in handlers: removeHandler(handler)] from position [i] on,
    over the list that the body shortens: the iterator takes the element at
    its position in the list as it is now, and stops when there is none.
    [steps] bounds the number of rounds; the result is the position reached
    and the handlers left. *)
Fixpoint remove_each (steps i : nat) (handlers : list Handler) : nat * list Handler :=
  match steps with
  | 0 => (i, handlers)
  | S steps' =>
      match handlers !! i with
      | None => (i, handlers)
      | Some handler => remove_each steps' (S i) (removeHandler handler handlers)
      end
  end.

(** [handlers.clear()] *)
Definition clear (handlers : list Handler) : list Handler := [].

Definition console_format : string :=
  "%(levelname)s - %(asctime)s - %(name)s - %(pathname)s:%(lineno)d - %(message)s".

Section LoggingSetup.
(** [DEBUG_MODE] of config/config.py, which is not among the sources. *)
Variable DEFAULT_DEBUG_MODE : string.

(** [debug_mode_override if debug_mode_override else DEFAULT_DEBUG_MODE] *)
Definition effective_debug_mode (debug_mode_override : option string) : string :=
  match debug_mode_override with
  | Some mode => if truthy (VStr mode) then mode else DEFAULT_DEBUG_MODE
  | None => DEFAULT_DEBUG_MODE
  end.

(** [setup_logging(debug_mode_override)] *)
Definition setup_logging (debug_mode_override : option string) (logging : Logging)
    : M Logging :=
  let mode := effective_debug_mode debug_mode_override in
  let handlers :=
    match root_handlers logging with
    | [] => []
    | _ :: _ =>
        clear (remove_each (length (root_handlers logging)) 0
                 (root_handlers logging)).2
    end in
  let level := if String.eqb mode "dev" then DEBUG else INFO in
  let handler :=
    {| handler_id := created logging; is_StreamHandler := true;
       handler_formatter := Some console_format |} in
  let missing := negb (existsb is_StreamHandler handlers) in
  let levels :=
    if String.eqb mode "test"
    then <["data.csv_task_repository" := ERROR]> (logger_levels logging)
    else logger_levels logging in
  emit DEBUG ("DEBUG - Logging configured for '" +:+ mode +:+ "' mode.");;
  mret {| root_level := level;
          root_handlers := if missing then addHandler handler handlers else handlers;
          logger_levels := levels;
          created := if missing then S (created logging) else created logging |}.

(** One call of [setup_logging] after the other. *)
Fixpoint setup_logging_each (overrides : list (option string)) (logging : Logging)
    : M Logging :=
  match overrides with
  | [] => mret logging
  | override :: rest =>
      logging ← setup_logging override logging;
      setup_logging_each rest logging
  end.
End LoggingSetup.

(** The elements at the odd positions of a list. *)
Fixpoint odd_positions {A} (l : list A) : list A :=
  match l with
  | _ :: x :: rest => x :: odd_positions rest
  | _ => []
  end.

(** ** Stand-ins for the further properties *)



(** Tasks as triples of id, title and status, as [sample_Task_init] makes
    them. *)
Definition SampleTask : Type := string * string * string.

Definition sample_Task_pending (title : string) : PyExc + SampleTask :=
  inr ("0c1d2e3f-1d2c-4e5f-8a9b-f0a3e8b14a5b", title, "PENDING").

Definition sample_mark_complete (task : SampleTask) : PyExc + SampleTask :=
  inr (task.1.1, task.1.2, "COMPLETE").

Definition sample_str_Task (task : SampleTask) : string :=
  "[" +:+ task.2 +:+ "] " +:+ task.1.2.

(** The CSV repository and its service on the sample file. *)
Definition sample_methods (self : CsvTaskRepository) : Repository string SampleTask :=
  CsvTaskRepository_methods sample_exists sample_open sample_fieldnames sample_rows
    sample_UUID_of id sample_status sample_Task_init (fun t => t.1.1) (fun t => t.1.2)
    (fun _ => "{...}") repr_list "{'id', 'title', 'status'}" self.

Definition sample_service (self : CsvTaskRepository) : TaskManagerService string SampleTask :=
  {| _task_repository := sample_methods self |}.


(** A file system in which every file is the sample file. *)
Definition everywhere_service (self : CsvTaskRepository)
    : TaskManagerService string SampleTask :=
  csv_service (fun _ => true) (fun _ => inr "id,title,status") sample_fieldnames
    sample_rows sample_UUID_of id sample_status sample_Task_init (fun t => t.1.1)
    (fun t => t.1.2) (fun _ => "{...}") repr_list "{'id', 'title', 'status'}" self.

(** The method call [task_service.get_all_tasks()] on a service object
    that holds a CSV repository object; no other object has the method. *)
Definition sample_call_get_all_tasks (task_service : Value) : M (list SampleTask) :=
  fun w =>
    let no_method :=
      Raise (mkExc AttributeError
               ("'" +:+ type_of (heap w) task_service
                +:+ "' object has no attribute 'get_all_tasks'")) w in
    match task_service with
    | VRef a =>
        match heap w !! a with
        | Some o =>
            match dict_get (ob_dict o) "_task_repository" with
            | Some (VRef r) =>
                match heap w !! r with
                | Some repository =>
                    match dict_get (ob_dict repository) "file_path" with
                    | Some (VStr path) =>
                        TaskManagerService_get_all_tasks
                          (everywhere_service {| file_path := path |}) w
                    | _ => no_method
                    end
                | None => no_method
                end
            | _ => no_method
            end
        | None => no_method
        end
    | _ => no_method
    end.

Definition sample_handlers : list Handler :=
  [ {| handler_id := 0; is_StreamHandler := true; handler_formatter := None |};
    {| handler_id := 1; is_StreamHandler := false; handler_formatter := None |};
    {| handler_id := 2; is_StreamHandler := true; handler_formatter := None |} ].

(** * Properties *)

(** ** The world only grows *)

#[global] Instance extends_preorder : PreOrder extends.
Proof.
  split.
  - intros w. split; reflexivity.
  - intros w1 w2 w3 [H1 H2] [H3 H4]. split; etrans; eauto.
Qed.



Lemma grows_weaken {A} w w' (o : Outcome A) :
  extends w w' → grows w' o → grows w o.
Proof. destruct o; simpl; auto; intros; etrans; eauto. Qed.

Section ContainerFacts.
Variable rt : Runtime.
Implicit Types (self : DependencyContainer) (w : World) (fuel : nat).

Lemma resolve_S fuel self abstraction :
  resolve rt (S fuel) self abstraction =
  let concrete_class := default abstraction (_registrations self !! abstraction) in
  if isabstract rt concrete_class then
    raise ValueError
      ("No concrete implementation registered for abstraction: "
       +:+ __name__ (classes rt abstraction))
  else
    resolve_dependencies rt (resolve rt fuel self) concrete_class
      (__init__ (classes rt concrete_class)) [] ≫= λ dependencies,
    emit DEBUG ("Resolving " +:+ __name__ (classes rt concrete_class)
                +:+ " with dependencies: " +:+ repr_list (keys dependencies)) ≫= λ _,
    instantiate rt concrete_class dependencies.
Proof. reflexivity. Qed.




(** The loop over a concatenated parameter list is the loop over the
    first part followed by the loop over the second. *)
Lemma resolve_dependencies_app (r : ClassId → M Value) c pre post deps w :
  resolve_dependencies rt r c (pre ++ post) deps w =
  (resolve_dependencies rt r c pre deps ≫= resolve_dependencies rt r c post) w.
Proof.
  revert deps w. induction pre as [|p pre IH]; intros deps w; simpl; [done|].
  destruct (String.eqb _ _); [apply IH|].
  unfold mbind, M_bind, bind.
  match goal with |- context [match ?m w with _ => _ end] => destruct (m w) end;
    auto.
Qed.

Lemma resolve_dependencies_cons (r : ClassId → M Value) c p post deps w :
  resolve_dependencies rt r c (p :: post) deps w =
  (resolve_parameter rt r c p deps ≫= resolve_dependencies rt r c post) w.
Proof. apply (resolve_dependencies_app r c [p] post). Qed.

(** [resolve] split at a parameter that the loop reaches. *)
Lemma resolve_at_parameter fuel self A pre p post deps1 w w1 :
  let T := default A (_registrations self !! A) in
  isabstract rt T = false →
  __init__ (classes rt T) = pre ++ p :: post →
  resolve_dependencies rt (resolve rt fuel self) T pre [] w = Return deps1 w1 →
  resolve rt (S fuel) self A w =
  match resolve_parameter rt (resolve rt fuel self) T p deps1 w1 with
  | Return deps2 w2 => finish rt fuel self T post deps2 w2
  | Raise e w2 => Raise e w2
  | OutOfFuel => OutOfFuel
  end.
Proof.
  intros T Habs Hsig Hpre. rewrite resolve_S. fold T. cbv zeta.
  rewrite Habs, Hsig. unfold finish, mbind, M_bind, bind.
  rewrite resolve_dependencies_app. unfold mbind, M_bind, bind. rewrite Hpre.
  rewrite resolve_dependencies_cons. unfold mbind, M_bind, bind.
  by destruct (resolve_parameter _ _ _ _ _).
Qed.

(** *** One parameter at a time *)

Lemma resolve_parameter_untyped (r : ClassId → M Value) c p deps w :
  Param.name p ≠ "self" → injectable p = None →
  resolve_parameter rt r c p deps w =
  match Param.default p with
  | Some d => Return (dict_set deps (Param.name p) d) w
  | None =>
      Raise (cannot_resolve rt (Param.name p) c "Missing type hint or default value.") w
  end.
Proof.
  intros Hname%String.eqb_neq Hinj. unfold resolve_parameter. simpl.
  rewrite Hname, Hinj. by destruct (Param.default p).
Qed.

Lemma resolve_parameter_typed (r : ClassId → M Value) c p D deps w :
  Param.name p ≠ "self" → injectable p = Some D →
  resolve_parameter rt r c p deps w =
  match r D w with
  | Return v w' => Return (dict_set deps (Param.name p) v) w'
  | Raise e w' =>
      if isinstance_exc e ValueError then
        match Param.default p with
        | Some d =>
            Return (dict_set deps (Param.name p) d)
              (logged w' (optional_warning rt (Param.name p) c))
        | None => Raise (cannot_resolve rt (Param.name p) c (exc_str e)) w'
        end
      else Raise e w'
  | OutOfFuel => OutOfFuel
  end.
Proof.
  intros Hname%String.eqb_neq Hinj. unfold resolve_parameter. simpl.
  rewrite Hname, Hinj. unfold try_except, mbind, M_bind, bind.
  destruct (r D w) as [v w'|e w'|]; try done.
  destruct (isinstance_exc e ValueError); try done.
  by destruct (Param.default p).
Qed.

Lemma injectable_kind p D :
  injectable p = Some D →
  Param.kind p = POSITIONAL_OR_KEYWORD ∧ Param.annotation p = Some D.
Proof. unfold injectable. by destruct (Param.kind p). Qed.

Lemma not_injectable_kind p :
  Param.kind p ≠ POSITIONAL_OR_KEYWORD → injectable p = None.
Proof. unfold injectable. by destruct (Param.kind p). Qed.

(** A parameter that is neither injectable nor defaulted stops every
    run of the loop that gets to it. *)
Lemma resolve_dependencies_never_returns (r : ClassId → M Value) c params p :
  p ∈ params → Param.name p ≠ "self" → injectable p = None →
  Param.default p = None →
  ∀ deps w deps' w', resolve_dependencies rt r c params deps w ≠ Return deps' w'.
Proof.
  intros Hin Hname Hinj Hdef.
  induction params as [|q params IH]; intros deps w deps' w'.
  - by apply elem_of_nil in Hin.
  - rewrite resolve_dependencies_cons. unfold mbind, M_bind, bind.
    apply elem_of_cons in Hin as [<-|Hin].
    + rewrite resolve_parameter_untyped, Hdef by done. done.
    + destruct (resolve_parameter _ _ _ _ _ _); try done. by apply IH.
Qed.

(** ** C5 *)

(** C5. Unresolved contract: when the requested type [C] is abstract and
    has no entry in the registration map, [resolve(C)] raises the
    [ValueError] that says no concrete implementation is registered for
    [C]; nothing has been instantiated or logged, the world is as it
    was. *)
Theorem C5_unresolved_contract fuel self C w :
  _registrations self !! C = None →
  isabstract rt C = true →
  resolve rt (S fuel) self C w =
  Raise (mkExc ValueError
           ("No concrete implementation registered for abstraction: "
            +:+ __name__ (classes rt C))) w.
Proof. intros Hreg Habs. rewrite resolve_S, Hreg. simpl. by rewrite Habs. Qed.

(** ** C4 *)


(** ** C10 *)

(** C10. Only positional-or-keyword parameters are injected: for a
    parameter [p] of any other kind, annotated or not, the loop never calls
    the resolver (whatever the resolver is, the step gives the same
    result): it stores the default when there is one and otherwise raises
    the [ValueError] "Missing type hint or default value." naming [p] and
    the class.  So [resolve] does what the parameters before [p] make it
    do and, once they are through, goes on with the default of [p] or
    raises that error; and a class with such a parameter without default
    is never resolved successfully. *)
Theorem C10_only_positional_or_keyword_injected fuel self A pre p post :
  let T := default A (_registrations self !! A) in
  isabstract rt T = false →
  __init__ (classes rt T) = pre ++ p :: post →
  Param.name p ≠ "self" →
  Param.kind p ≠ POSITIONAL_OR_KEYWORD →
  (∀ (r : ClassId → M Value) deps w,
     resolve_parameter rt r T p deps w =
     match Param.default p with
     | Some d => Return (dict_set deps (Param.name p) d) w
     | None =>
         Raise (mkExc ValueError
                  ("Cannot resolve dependency " +:+ repr_str (Param.name p) +:+ " for "
                   +:+ repr_str (__name__ (classes rt T))
                   +:+ ": Missing type hint or default value.")) w
     end)
  ∧ (∀ w,
       resolve rt (S fuel) self A w =
       match resolve_dependencies rt (resolve rt fuel self) T pre [] w with
       | Return deps1 w1 =>
           match Param.default p with
           | Some d => finish rt fuel self T post (dict_set deps1 (Param.name p) d) w1
           | None =>
               Raise (mkExc ValueError
                        ("Cannot resolve dependency " +:+ repr_str (Param.name p)
                         +:+ " for " +:+ repr_str (__name__ (classes rt T))
                         +:+ ": Missing type hint or default value.")) w1
           end
       | Raise e w1 => Raise e w1
       | OutOfFuel => OutOfFuel
       end)
  ∧ (Param.default p = None →
     ∀ fuel' w v w', resolve rt fuel' self A w ≠ Return v w').
Proof.
  intros T Habs Hsig Hname Hkind%not_injectable_kind.
  split; [|split].
  - intros r deps w. by rewrite resolve_parameter_untyped.
  - intros w. rewrite resolve_S. fold T. cbv zeta. rewrite Habs, Hsig.
    unfold mbind, M_bind, bind. rewrite resolve_dependencies_app.
    unfold mbind, M_bind, bind.
    destruct (resolve_dependencies rt (resolve rt fuel self) T pre [] w)
      as [deps1 w1|e w1|]; [|done..].
    rewrite resolve_dependencies_cons. unfold mbind, M_bind, bind.
    rewrite resolve_parameter_untyped by done.
    by destruct (Param.default p).
  - intros Hdef [|fuel'] w v w'; [done|]. rewrite resolve_S. fold T. cbv zeta.
    rewrite Habs, Hsig. unfold mbind, M_bind, bind.
    destruct (resolve_dependencies rt (resolve rt fuel' self) T (pre ++ p :: post) [] w)
      as [deps' w3| |] eqn:Hloop; try done.
    exfalso. revert Hloop. apply resolve_dependencies_never_returns with p; try done.
    apply elem_of_app. right. apply elem_of_cons. by left.
Qed.

(** ** C3, as amended *)

(** C3 (amended). Construction failures: an error raised by the
    constructor of the class that [resolve] was asked to build is raised by
    [resolve] unchanged; and an error that is not a [ValueError], raised
    while a typed parameter is resolved recursively (by a constructor at
    any depth), is raised by the enclosing [resolve] unchanged and in the
    same world. *)
Theorem C3_construction_failures_pass_through fuel self A :
  let T := default A (_registrations self !! A) in
  isabstract rt T = false →
  (∀ w deps w1 e,
     resolve_dependencies rt (resolve rt fuel self) T (__init__ (classes rt T)) [] w
       = Return deps w1 →
     init_result (construct rt T (heap w1) deps) = inl e →
     ∃ w2, resolve rt (S fuel) self A w = Raise e w2 ∧ heap w2 = heap w1)
  ∧ (∀ pre p post D e deps1 w w1 w2,
       __init__ (classes rt T) = pre ++ p :: post →
       resolve_dependencies rt (resolve rt fuel self) T pre [] w = Return deps1 w1 →
       Param.name p ≠ "self" →
       injectable p = Some D →
       resolve rt fuel self D w1 = Raise e w2 →
       isinstance_exc e ValueError = false →
       resolve rt (S fuel) self A w = Raise e w2).
Proof.
  intros T Habs. split.
  - intros w deps w1 e Hloop Hinit. rewrite resolve_S. fold T. cbv zeta.
    rewrite Habs. unfold mbind, M_bind, bind. rewrite Hloop. simpl.
    unfold instantiate. simpl. rewrite Hinit. eauto.
  - intros pre p post D e deps1 w w1 w2 Hsig Hpre Hname Hinj Hrec He.
    rewrite (resolve_at_parameter fuel self A pre p post deps1 w w1) by done.
    fold T. by rewrite (resolve_parameter_typed _ _ _ D), Hrec, He.
Qed.

(** *** What a successful call has done *)

Lemma instantiate_returns c deps w v w' :
  instantiate rt c deps w = Return v w' →
  ∃ d, init_result (construct rt c (heap w) deps) = inr d
       ∧ v = VRef (length (heap w))
       ∧ heap w' = heap w ++ [{| ob_type := c; ob_dict := d |}].
Proof.
  unfold instantiate. destruct (init_result _) as [e|d]; [done|].
  intros [= <- <-]. eauto.
Qed.

Lemma resolve_returns fuel self A w v w' :
  resolve rt fuel self A w = Return v w' →
  let T := default A (_registrations self !! A) in
  ∃ fuel' deps w1 d,
    fuel = S fuel'
    ∧ isabstract rt T = false
    ∧ resolve_dependencies rt (resolve rt fuel' self) T (__init__ (classes rt T)) [] w
      = Return deps w1
    ∧ init_result (construct rt T (heap w1) deps) = inr d
    ∧ v = VRef (length (heap w1))
    ∧ heap w' = heap w1 ++ [{| ob_type := T; ob_dict := d |}].
Proof.
  destruct fuel as [|fuel']; [done|]. rewrite resolve_S. cbv zeta.
  destruct (isabstract _ _) eqn:Habs; [done|].
  unfold mbind, M_bind, bind.
  destruct (resolve_dependencies _ _ _ _ _ _) as [deps w1| |] eqn:Hloop; try done.
  simpl. intros (d & Hd & -> & Hheap)%instantiate_returns. simpl in *.
  by exists fuel', deps, w1, d.
Qed.







(** ** C6 *)


(** *** What [register] has done *)

Lemma register_returns self C path w self' w' :
  register rt self C path w = Return self' w' →
  ∃ T, load rt path = inr (AClass T)
       ∧ issubclass rt T C = true
       ∧ self' = {| _registrations := <[C := T]> (_registrations self) |}
       ∧ heap w' = heap w.
Proof.
  unfold register, raise, reraise. destruct (load rt path) as [e|[T|]].
  - by destruct (_ || _).
  - destruct (issubclass rt T C) eqn:Hsub; simpl; [|done].
    unfold mbind, M_bind, bind, emit, mret, M_ret, ret.
    intros [= <- <-]. by exists T.
  - done.
Qed.

Lemma register_raises self C path w e w' :
  register rt self C path w = Raise e w' → w' = w.
Proof.
  unfold register, raise, reraise. destruct (load rt path) as [e0|[T|]].
  - destruct (_ || _); by intros [= _ <-].
  - destruct (issubclass rt T C); simpl; [done|]. by intros [= _ <-].
  - by intros [= _ <-].
Qed.

Lemma register_terminates self C path w : register rt self C path w ≠ OutOfFuel.
Proof.
  unfold register, raise, reraise. destruct (load rt path) as [e0|[T|]]; try done.
  - by destruct (_ || _).
  - by destruct (issubclass rt T C).
Qed.

(** ** C7 *)


(** ** C2, as amended *)

(** C2 (amended). Registration checks inheritance, at registration time:
    [register(C, L)] always finishes; it returns only when the locator [L]
    loads a class [T] with [issubclass(T, C)], and then the map is the old
    one with [C] set to [T]; otherwise it raises and the world is as it
    was.  So in every container built by [register] calls from an empty
    one, each registered contract maps to a subclass of it. *)
Theorem C2_registration_checks_subclass self :
  configured rt self →
  (∀ C T, _registrations self !! C = Some T → issubclass rt T C = true)
  ∧ (∀ C L w,
       match register rt self C L w with
       | Return self' w' =>
           ∃ T, load rt L = inr (AClass T) ∧ issubclass rt T C = true
                ∧ _registrations self' = <[C := T]> (_registrations self)
       | Raise e w' =>
           w' = w
           ∧ ¬ (∃ T, load rt L = inr (AClass T) ∧ issubclass rt T C = true)
       | OutOfFuel => False
       end).
Proof.
  intros Hconf. split.
  - induction Hconf as [|self C' path w self' w' Hconf IH Hreg]; intros C T.
    + simpl. by rewrite lookup_empty.
    + apply register_returns in Hreg as (T' & _ & Hsub & -> & _). simpl.
      destruct (decide (C' = C)) as [->|Hne].
      * rewrite lookup_insert_eq. by intros [= <-].
      * rewrite lookup_insert_ne by done. apply IH.
  - intros C L w. destruct (register rt self C L w) as [self' w'|e w'|] eqn:Hreg.
    + apply register_returns in Hreg as (T & ? & ? & -> & _). by exists T.
    + split; [by eapply register_raises|].
      intros (T & Hload & Hsub). unfold register in Hreg.
      rewrite Hload, Hsub in Hreg. done.
    + by apply register_terminates in Hreg.
Qed.

(** *** The errors of [resolve] *)


(** *** Fuel *)

Lemma bind_terminated {A B} (m : M A) (k : A → M B) w :
  (m ≫= k) w ≠ OutOfFuel → m w ≠ OutOfFuel.
Proof. unfold mbind, M_bind, bind. by destruct (m w). Qed.

Lemma resolve_dependencies_mono (r1 r2 : ClassId → M Value) c params :
  (∀ D w, r1 D w ≠ OutOfFuel → r2 D w = r1 D w) →
  ∀ deps w,
    resolve_dependencies rt r1 c params deps w ≠ OutOfFuel →
    resolve_dependencies rt r2 c params deps w
    = resolve_dependencies rt r1 c params deps w.
Proof.
  intros Hr. induction params as [|p params IH]; intros deps w; [done|].
  simpl. destruct (String.eqb _ _); [apply IH|].
  unfold mbind, M_bind, bind.
  destruct (injectable p) as [D|]; simpl.
  - unfold try_except, bind. specialize (Hr D w).
    destruct (r1 D w) as [v w1|e w1|] eqn:Hr1.
    + rewrite Hr by done. simpl. apply IH.
    + rewrite Hr by done. destruct (isinstance_exc e ValueError); [|done].
      destruct (Param.default p); [|done]. simpl. apply IH.
    + done.
  - destruct (Param.default p); [|done]. simpl. apply IH.
Qed.

(** More fuel does not change an outcome that was reached. *)
Lemma resolve_mono_S fuel self :
  ∀ A w, resolve rt fuel self A w ≠ OutOfFuel →
         resolve rt (S fuel) self A w = resolve rt fuel self A w.
Proof.
  induction fuel as [|fuel IH]; intros A w Hterm; [done|].
  rewrite (resolve_S (S fuel)). rewrite resolve_S in Hterm |- *. cbv zeta in *.
  destruct (isabstract _ _); [done|].
  apply bind_terminated in Hterm as Hloop.
  unfold mbind, M_bind, bind.
  by rewrite (resolve_dependencies_mono (resolve rt fuel self) (resolve rt (S fuel) self)).
Qed.

Lemma resolve_mono fuel fuel' self A w :
  fuel ≤ fuel' → resolve rt fuel self A w ≠ OutOfFuel →
  resolve rt fuel' self A w = resolve rt fuel self A w.
Proof.
  induction 1 as [|fuel' Hle IH]; [done|]. intros Hterm.
  rewrite resolve_mono_S; rewrite IH; done.
Qed.

Lemma resolve_dependencies_terminates (r : ClassId → M Value) c params :
  (∀ p D, p ∈ params → Param.name p ≠ "self" → injectable p = Some D →
          ∀ w, r D w ≠ OutOfFuel) →
  ∀ deps w, resolve_dependencies rt r c params deps w ≠ OutOfFuel.
Proof.
  induction params as [|p params IH]; intros Hr deps w; [done|].
  assert (∀ deps w, resolve_dependencies rt r c params deps w ≠ OutOfFuel) as IH'.
  { apply IH. intros q D Hq. apply Hr. by apply list_elem_of_further. }
  rewrite resolve_dependencies_cons. unfold mbind, M_bind, bind.
  destruct (resolve_parameter rt r c p deps w) as [deps1 w1|e w1|] eqn:Hp; try done.
  destruct (decide (Param.name p = "self")) as [Heq|Hne].
  { unfold resolve_parameter in Hp. simpl in Hp.
    apply String.eqb_eq in Heq. by rewrite Heq in Hp. }
  destruct (injectable p) as [D|] eqn:Hinj.
  - rewrite (resolve_parameter_typed _ _ _ D) in Hp by done.
    pose proof (Hr p D (list_elem_of_here _ _) Hne Hinj w) as Hterm.
    destruct (r D w) as [? ?|e ?|]; try done.
    destruct (isinstance_exc e ValueError); try done.
    by destruct (Param.default p).
  - rewrite resolve_parameter_untyped in Hp by done. by destruct (Param.default p).
Qed.

Lemma common_bound self (params : list Param.t) :
  (∀ p D, p ∈ params → Param.name p ≠ "self" → injectable p = Some D →
          ∃ n, terminates_from rt self n D) →
  ∃ N, ∀ p D, p ∈ params → Param.name p ≠ "self" → injectable p = Some D →
              terminates_from rt self N D.
Proof.
  induction params as [|p params IH]; intros H.
  - exists 0. intros p D Hin. by apply elem_of_nil in Hin.
  - destruct IH as [N HN].
    { intros q D Hq. apply H. by apply list_elem_of_further. }
    assert (∃ n, ∀ D, Param.name p ≠ "self" → injectable p = Some D →
                      terminates_from rt self n D) as [n Hn].
    { destruct (decide (Param.name p = "self")) as [?|Hne]; [by exists 0|].
      destruct (injectable p) as [D|] eqn:Hinj; [|by exists 0].
      destruct (H p D (list_elem_of_here _ _) Hne Hinj) as [n Hn].
      exists n. by intros ? _ [= <-]. }
    exists (n `max` N). intros q D [->|Hq]%elem_of_cons Hne Hinj fuel w Hle.
    + apply (Hn D Hne Hinj). lia.
    + apply (HN q D Hq Hne Hinj). lia.
Qed.

Lemma sn_terminates self A :
  sn (depends_on rt self) A → ∃ n, terminates_from rt self n A.
Proof.
  induction 1 as [A _ IH].
  destruct (isabstract rt (default A (_registrations self !! A))) eqn:Habs.
  { exists 1. intros [|fuel] w Hle; [lia|]. rewrite resolve_S. cbv zeta.
    by rewrite Habs. }
  destruct (common_bound self
              (__init__ (classes rt (default A (_registrations self !! A)))))
    as [N HN].
  { intros p D Hin Hne Hinj. apply IH. split; [done|]. by exists p. }
  exists (S N). intros [|fuel] w Hle; [lia|]. rewrite resolve_S. cbv zeta.
  rewrite Habs. unfold mbind, M_bind, bind.
  pose proof (resolve_dependencies_terminates (resolve rt fuel self)
                (default A (_registrations self !! A))
                (__init__ (classes rt (default A (_registrations self !! A))))) as Hloop.
  destruct (resolve_dependencies _ _ _ _ _ _) as [deps w1|e w1|] eqn:Hl; try done.
  - simpl. unfold instantiate. by destruct (init_result _).
  - exfalso. revert Hl. apply Hloop. intros p D Hin Hne Hinj w'.
    apply (HN p D Hin Hne Hinj). lia.
Qed.

Lemma request_graph_sn self A X :
  rtc (depends_on rt self) A X →
  sn (request_graph rt self A) X → sn (depends_on rt self) X.
Proof.
  intros Hreach Hsn. induction Hsn as [X _ IH].
  constructor. intros Y HXY. apply IH.
  - by split.
  - eapply rtc_r; eauto.
Qed.

Lemma followed_forever_diverges self (S : ClassId → Prop) :
  followed_forever rt self S →
  ∀ fuel X w, S X → resolve rt fuel self X w = OutOfFuel.
Proof.
  intros HS. induction fuel as [|fuel IH]; intros X w HX; [done|].
  destruct (HS X HX) as (Habs & pre & p & post & D & Hsig & Hpre & Hne & Hinj & HD).
  rewrite resolve_S. cbv zeta. rewrite Habs, Hsig.
  unfold mbind, M_bind, bind. rewrite resolve_dependencies_app.
  unfold mbind, M_bind, bind.
  destruct (resolve_dependencies rt (resolve rt fuel self) _ pre [] w)
    as [deps1 w1|e w1|] eqn:Hl; [|by apply Hpre in Hl|done].
  rewrite resolve_dependencies_cons. unfold mbind, M_bind, bind.
  by rewrite (resolve_parameter_typed _ _ _ D), IH.
Qed.

(** Acyclicity from a rank that decreases along the edges of the classes
    a request reaches. *)
Lemma ranked_request_graph self A (rank : ClassId → nat) (xs : list ClassId) :
  (∀ X, rtc (depends_on rt self) A X → X ∈ xs) →
  (∀ X Y, X ∈ xs → depends_on rt self X Y → rank Y < rank X) →
  Irreflexive (tc (request_graph rt self A))
  ∧ pred_finite (tc (request_graph rt self A) A).
Proof.
  intros Hreach Hrank.
  assert (∀ X Y, tc (request_graph rt self A) X Y →
                 rank Y < rank X ∧ rtc (depends_on rt self) A Y) as Htc.
  { induction 1 as [X Y [HX HXY]|X Y Z [HX HXY] _ [IH1 IH2]].
    - split; [by apply Hrank; auto|]. by eapply rtc_r.
    - split; [|done]. pose proof (Hrank X Y (Hreach X HX) HXY). lia. }
  split.
  - intros X HX. apply Htc in HX as [? _]. lia.
  - exists xs. intros Y HY. apply Hreach. by apply Htc in HY as [_ ?].
Qed.

(** ** C8 *)

(** C8 (amended). Termination under acyclicity, and no cycle detection:
    when the dependency graph that a request for [A] reaches has no cycle
    (and finitely many classes), [resolve(A)] terminates: some amount of
    fuel gives an outcome in every world, and more fuel gives the same.
    When the loop follows a cycle, a set of classes each of which reaches
    one of the set through an injected parameter with no raising parameter
    before it, no amount of fuel gives an outcome. *)
Theorem C8_termination_under_acyclicity self :
  (∀ A,
     Irreflexive (tc (request_graph rt self A)) →
     pred_finite (tc (request_graph rt self A) A) →
     ∃ n, ∀ w,
       resolve rt n self A w ≠ OutOfFuel
       ∧ ∀ fuel, n ≤ fuel → resolve rt fuel self A w = resolve rt n self A w)
  ∧ (∀ S : ClassId → Prop,
       followed_forever rt self S →
       ∀ X, S X → ∀ fuel w, resolve rt fuel self X w = OutOfFuel).
Proof.
  split.
  - intros A Hacyclic Hfinite.
    destruct (sn_terminates self A) as [n Hn].
    { apply (request_graph_sn self A); [done|]. by apply tc_finite_sn. }
    exists n. intros w. split; [by apply Hn|].
    intros fuel Hle. apply resolve_mono; [done|]. by apply Hn.
  - intros S HS X HX fuel w. by apply (followed_forever_diverges self S).
Qed.

End ContainerFacts.

(** ** The application's wiring *)

Section Wiring.
Variable abspath_file : string.
Let rt := TaskBuddy abspath_file.

(** [str] has the constructor signature of [object], whose [*args] can be
    neither injected nor defaulted. *)
Lemma resolve_str fuel self w :
  _registrations self !! "str" = None →
  resolve rt (S fuel) self "str" w =
  Raise (cannot_resolve rt "args" "str" "Missing type hint or default value.") w.
Proof. intros Hreg. rewrite resolve_S, Hreg. reflexivity. Qed.

Lemma resolve_ITaskRepository fuel self w :
  _registrations self !! "ITaskRepository" = Some "CsvTaskRepository" →
  _registrations self !! "str" = None →
  ∃ w', resolve rt (S (S fuel)) self "ITaskRepository" w
        = Return (VRef (length (heap w))) w'
        ∧ heap w' = heap w ++ [(csv_instance abspath_file)].
Proof.
  intros Hreg Hstr. rewrite resolve_S, Hreg. cbv zeta.
  change (default "ITaskRepository" (Some "CsvTaskRepository")) with "CsvTaskRepository".
  change (isabstract rt "CsvTaskRepository") with false. cbv iota.
  change (__init__ (classes rt "CsvTaskRepository"))
    with ([self_param] ++ typed_default "file_path" "str" VNone :: []).
  unfold mbind, M_bind, bind. rewrite resolve_dependencies_app.
  unfold mbind, M_bind, bind.
  change (resolve_dependencies rt (resolve rt (S fuel) self) "CsvTaskRepository"
            [self_param] [] w) with (Return (@nil (string * Value)) w).
  cbv iota. rewrite resolve_dependencies_cons. unfold mbind, M_bind, bind.
  rewrite (resolve_parameter_typed _ _ _ _ "str") by done.
  rewrite resolve_str by done.
  eexists. split; reflexivity.
Qed.

Lemma TaskManagerService_init_csv h repo :
  h !! repo = Some (csv_instance abspath_file) →
  TaskManagerService_init TaskBuddy_classes h (VRef repo) =
  {| init_log :=
       [ {| levelname := DEBUG;
            message := "TaskManagerService initialized with repository: CsvTaskRepository" |} ];
     init_result := inr [("_task_repository", VRef repo)] |}.
Proof.
  intros Hrepo. unfold TaskManagerService_init, isinstance, type_of.
  rewrite Hrepo. reflexivity.
Qed.

Lemma resolve_TaskManagerService fuel self w :
  _registrations self !! "TaskManagerService" = None →
  _registrations self !! "ITaskRepository" = Some "CsvTaskRepository" →
  _registrations self !! "str" = None →
  ∃ w', resolve rt (S (S (S fuel))) self "TaskManagerService" w
        = Return (VRef (S (length (heap w)))) w'
        ∧ heap w' = heap w ++ [(csv_instance abspath_file); service_instance (length (heap w))].
Proof.
  intros Hsvc Hreg Hstr. rewrite resolve_S, Hsvc. cbv zeta.
  change (default "TaskManagerService" None) with "TaskManagerService".
  change (isabstract rt "TaskManagerService") with false. cbv iota.
  change (__init__ (classes rt "TaskManagerService"))
    with ([self_param] ++ typed "task_repository" "ITaskRepository" :: []).
  unfold mbind, M_bind, bind. rewrite resolve_dependencies_app.
  unfold mbind, M_bind, bind.
  change (resolve_dependencies rt (resolve rt (S (S fuel)) self) "TaskManagerService"
            [self_param] [] w) with (Return (@nil (string * Value)) w).
  cbv iota. rewrite resolve_dependencies_cons. unfold mbind, M_bind, bind.
  rewrite (resolve_parameter_typed _ _ _ _ "ITaskRepository") by done.
  destruct (resolve_ITaskRepository fuel self w Hreg Hstr) as (w1 & -> & Hheap).
  cbn [resolve_dependencies mret M_ret ret emit].
  unfold instantiate. cbn [heap log].
  change (construct rt "TaskManagerService" (heap w1)
            (dict_set [] (Param.name (typed "task_repository" "ITaskRepository"))
               (VRef (length (heap w)))))
    with (TaskManagerService_init TaskBuddy_classes (heap w1) (VRef (length (heap w)))).
  rewrite (TaskManagerService_init_csv (heap w1) (length (heap w)))
    by (rewrite Hheap; by apply list_lookup_middle).
  cbn [init_result init_log]. eexists. split.
  - f_equal. f_equal. rewrite Hheap, length_app. simpl. lia.
  - cbn [heap]. rewrite Hheap. by rewrite <- app_assoc.
Qed.

(** ** C1 *)

(** C1. End-to-end wiring: on a fresh container,
    [register(ITaskRepository, "data.csv_task_repository.CsvTaskRepository")]
    succeeds, and from then on [resolve(TaskManagerService)], in any world
    and with fuel for three nested calls, returns a new
    [TaskManagerService] object whose [_task_repository] is a new
    [CsvTaskRepository] object whose [file_path] is the default path that
    its constructor computes; the request names [TaskManagerService]
    only. *)
Theorem C1_end_to_end_wiring fuel w :
  ∃ container w1,
    register rt empty_container "ITaskRepository"
      "data.csv_task_repository.CsvTaskRepository" w = Return container w1
    ∧ ∀ w2, ∃ svc repo w3,
        resolve rt (3 + fuel) container "TaskManagerService" w2 = Return (VRef svc) w3
        ∧ heap w2 !! svc = None ∧ heap w2 !! repo = None
        ∧ heap w3 !! svc
          = Some {| ob_type := "TaskManagerService";
                    ob_dict := [("_task_repository", VRef repo)] |}
        ∧ heap w3 !! repo
          = Some {| ob_type := "CsvTaskRepository";
                    ob_dict := [("file_path", VStr (default_file_path abspath_file))] |}.
Proof.
  eexists _, _. split; [reflexivity|]. intros w2.
  destruct (resolve_TaskManagerService fuel
              {| _registrations := <["ITaskRepository" := "CsvTaskRepository"]> ∅ |} w2)
    as (w3 & Hres & Hheap); [done..|].
  exists (S (length (heap w2))), (length (heap w2)), w3.
  split; [exact Hres|]. rewrite Hheap.
  split; [apply lookup_ge_None; lia|]. split; [apply lookup_ge_None; lia|]. split.
  - change (heap w2 ++ [(csv_instance abspath_file); service_instance (length (heap w2))])
      with (heap w2 ++ [(csv_instance abspath_file)] ++ [service_instance (length (heap w2))]).
    rewrite app_assoc. apply list_lookup_middle. rewrite length_app. simpl. lia.
  - by apply list_lookup_middle.
Qed.

End Wiring.

(** ** The CSV repository *)

Section CsvRepositoryFacts.
Context {UUID TaskStatus Task : Type} `{EqDecision UUID}.
Variable path_exists : string → bool.
Variable open_text : string → PyExc + string.
Variable fieldnames : string → list string.
Variable rows : string → list (list (string * option string)).
Variable UUID_of : string → PyExc + UUID.
Variable str_UUID : UUID → string.
Variable TaskStatus_getitem : string → option TaskStatus.
Variable Task_init : string → TaskStatus → UUID → PyExc + Task.
Variable Task_id : Task → UUID.
Variable Task_title : Task → string.
Variable repr_row : list (string * option string) → string.
Variable repr_strs : list string → string.
Variable repr_expected_headers : string.






(** ** C9 *)


End CsvRepositoryFacts.

(** ** The theorems at concrete inputs *)

(** The graph that the request of main.py reaches: the service depends on
    the contract, the contract (registered to the CSV repository) on [str],
    and [str] on nothing. *)
Lemma wiring_edges X Y :
  X ∈ ["TaskManagerService"; "ITaskRepository"; "str"] →
  depends_on Examples csv_container X Y →
  (X = "TaskManagerService" ∧ Y = "ITaskRepository")
  ∨ (X = "ITaskRepository" ∧ Y = "str").
Proof.
  intros HX (Habs & p & Hp & Hname & Hinj).
  repeat (apply elem_of_cons in HX as [->|HX]); [| | |by apply elem_of_nil in HX].
  - left. split; [done|]. vm_compute in Hp.
    repeat (apply elem_of_cons in Hp as [->|Hp]); try done;
      [by injection Hinj as <-|by apply elem_of_nil in Hp].
  - right. split; [done|]. vm_compute in Hp.
    repeat (apply elem_of_cons in Hp as [->|Hp]); try done;
      [by injection Hinj as <-|by apply elem_of_nil in Hp].
  - exfalso. vm_compute in Hp.
    repeat (apply elem_of_cons in Hp as [->|Hp]); try done.
    by apply elem_of_nil in Hp.
Qed.

Lemma wiring_reach X :
  rtc (depends_on Examples csv_container) "TaskManagerService" X →
  X ∈ ["TaskManagerService"; "ITaskRepository"; "str"].
Proof.
  revert X. apply rtc_ind_r; [apply list_elem_of_here|].
  intros X Y _ HXY IH.
  destruct (wiring_edges X Y IH HXY) as [[_ ->]|[_ ->]].
  - apply list_elem_of_further, list_elem_of_here.
  - do 2 apply list_elem_of_further. apply list_elem_of_here.
Qed.

Lemma wiring_acyclic :
  Irreflexive (tc (request_graph Examples csv_container "TaskManagerService"))
  ∧ pred_finite (tc (request_graph Examples csv_container "TaskManagerService")
                   "TaskManagerService").
Proof.
  apply (ranked_request_graph Examples csv_container "TaskManagerService" wiring_rank
           ["TaskManagerService"; "ITaskRepository"; "str"]).
  - apply wiring_reach.
  - intros X Y HX HXY.
    destruct (wiring_edges X Y HX HXY) as [[-> ->]|[-> ->]]; vm_compute; lia.
Qed.

(** C5 at the application's contract, before anything is registered. *)
Lemma C5_unresolved_contract_witness :
  _registrations empty_container !! "ITaskRepository" = None
  ∧ isabstract Examples "ITaskRepository" = true
  ∧ resolve Examples 1 empty_container "ITaskRepository" fresh_world
    = Raise (mkExc ValueError
               "No concrete implementation registered for abstraction: ITaskRepository")
        fresh_world.
Proof.
  split; [reflexivity|]. split; [reflexivity|].
  apply (C5_unresolved_contract Examples 0 empty_container "ITaskRepository" fresh_world);
    reflexivity.
Defined.


(** C10 at two classes with a keyword-only, annotated parameter: without
    default the error, with default the default, although the annotation is
    a registered, resolvable class. *)
Lemma C10_only_positional_or_keyword_injected_witness :
  resolve Examples 1 memory_container "Export" fresh_world
  = Raise (mkExc ValueError
             "Cannot resolve dependency 'repo' for 'Export': Missing type hint or default value.")
      fresh_world
  ∧ resolve Examples 1 memory_container "Report" fresh_world
    = finish Examples 0 memory_container "Report" [] [("repo", VNone)] fresh_world.
Proof.
  split.
  - apply (proj1 (proj2 (C10_only_positional_or_keyword_injected Examples 0
                           memory_container "Export" [self_param]
                           (Param.mk "repo" KEYWORD_ONLY (Some "InMemoryRepository") None) []
                           eq_refl eq_refl ltac:(discriminate) ltac:(discriminate)))
             fresh_world).
  - apply (proj1 (proj2 (C10_only_positional_or_keyword_injected Examples 0
                           memory_container "Report" [self_param]
                           (Param.mk "repo" KEYWORD_ONLY (Some "InMemoryRepository")
                              (Some VNone)) []
                           eq_refl eq_refl ltac:(discriminate) ltac:(discriminate)))
             fresh_world).
Defined.

(** C3 (amended) at a constructor that raises an [OSError]: asked for
    directly, and as the dependency of a parameter that has a default. *)
Lemma C3_construction_failures_pass_through_witness :
  isinstance_exc disk_full ValueError = false
  ∧ (∃ w, resolve Examples 1 empty_container "Disk" fresh_world = Raise disk_full w)
  ∧ resolve Examples 2 empty_container "Archive" fresh_world
    = Raise disk_full (after_resolving "Disk").
Proof.
  split; [reflexivity|]. split.
  - destruct (proj1 (C3_construction_failures_pass_through Examples 0 empty_container
                       "Disk" eq_refl) fresh_world [] fresh_world disk_full eq_refl eq_refl)
      as [w [Hw _]].
    exists w. exact Hw.
  - apply (proj2 (C3_construction_failures_pass_through Examples 1 empty_container
                    "Archive" eq_refl)
             [self_param] (typed_default "disk" "Disk" VNone) [] "Disk" disk_full []
             fresh_world fresh_world (after_resolving "Disk"));
      try reflexivity; discriminate.
Defined.

(** C3 as stated fails: the constructor of [Inner] raises
    [ValueError("boom")]; asked for [Outer], whose parameter [dep: Inner] has
    no default, [resolve] raises another error, which wraps the message; asked
    for [OuterOpt], whose parameter [dep: Inner = None] has a default,
    [resolve] raises nothing and builds the object with the default. *)
Lemma C3_counterexample :
  init_result (construct Examples "Inner" [] []) = inl boom
  ∧ resolve Examples 1 empty_container "Inner" fresh_world
    = Raise boom (after_resolving "Inner")
  ∧ resolve Examples 2 empty_container "Outer" fresh_world
    = Raise (mkExc ValueError "Cannot resolve dependency 'dep' for 'Outer': boom")
        (after_resolving "Inner")
  ∧ mkExc ValueError "Cannot resolve dependency 'dep' for 'Outer': boom" ≠ boom
  ∧ ∃ w, resolve Examples 2 empty_container "OuterOpt" fresh_world = Return (VRef 0) w
         ∧ heap w = [{| ob_type := "OuterOpt"; ob_dict := [("dep", VNone)] |}].
Proof.
  split; [reflexivity|]. split; [reflexivity|]. split; [reflexivity|].
  split; [discriminate|]. eexists. split; [vm_compute; reflexivity|reflexivity].
Qed.



(** C2 (amended) at the container that registers the in-memory
    repository. *)
Lemma C2_registration_checks_subclass_witness :
  configured Examples memory_container
  ∧ (∀ C T, _registrations memory_container !! C = Some T → issubclass Examples T C = true).
Proof.
  assert (configured Examples memory_container) as H.
  { apply (configured_register Examples empty_container "ITaskRepository"
             "tests.fakes.InMemoryRepository" fresh_world memory_container
             (logged fresh_world
                {| levelname := DEBUG;
                   message := "Registered InMemoryRepository for ITaskRepository" |})).
    - apply configured_empty.
    - reflexivity. }
  split; [exact H|].
  exact (proj1 (C2_registration_checks_subclass Examples memory_container H)).
Defined.

(** C2 as stated fails: [register] accepts [PartialRepository], a subclass
    of the contract that implements one of its five operations; the contract
    is then registered to a class that does not satisfy it, and the failure
    shows at [resolve]. *)
Lemma C2_counterexample :
  ∃ self w,
    register Examples empty_container "ITaskRepository" "tests.fakes.PartialRepository"
      fresh_world = Return self w
    ∧ _registrations self !! "ITaskRepository" = Some "PartialRepository"
    ∧ ¬ structurally_satisfies Examples "PartialRepository" "ITaskRepository"
    ∧ resolve Examples 1 self "ITaskRepository" w
      = Raise (mkExc ValueError
                 "No concrete implementation registered for abstraction: ITaskRepository") w.
Proof.
  eexists _, _. split; [vm_compute; reflexivity|].
  split; [reflexivity|]. split; [|reflexivity].
  intros H. destruct (H "add_task") as [_ Hnot].
  - apply list_elem_of_further, list_elem_of_here.
  - apply Hnot. apply list_elem_of_here.
Qed.

Lemma caching_followed :
  followed_forever Examples caching_container
    (λ X, X = "TaskManagerService" ∨ X = "ITaskRepository").
Proof.
  intros X [->| ->]; (split; [reflexivity|]).
  - exists [self_param], (typed "task_repository" "ITaskRepository"), [], "ITaskRepository".
    split; [reflexivity|]. split; [intros; discriminate|].
    split; [discriminate|]. split; [reflexivity|]. by right.
  - exists [self_param], (typed "inner" "ITaskRepository"), [], "ITaskRepository".
    split; [reflexivity|]. split; [intros; discriminate|].
    split; [discriminate|]. split; [reflexivity|]. by right.
Qed.

(** C8 (amended) at the request of main.py, whose graph has no cycle, and
    at the same request when the contract is registered to a decorator of
    itself. *)
Lemma C8_termination_under_acyclicity_witness :
  (∃ n, ∀ w,
     resolve Examples n csv_container "TaskManagerService" w ≠ OutOfFuel
     ∧ ∀ fuel, n ≤ fuel →
         resolve Examples fuel csv_container "TaskManagerService" w
         = resolve Examples n csv_container "TaskManagerService" w)
  ∧ (∀ fuel w, resolve Examples fuel caching_container "TaskManagerService" w = OutOfFuel).
Proof.
  split.
  - apply (proj1 (C8_termination_under_acyclicity Examples csv_container)
             "TaskManagerService" (proj1 wiring_acyclic) (proj2 wiring_acyclic)).
  - apply (proj2 (C8_termination_under_acyclicity Examples caching_container)
             (λ X, X = "TaskManagerService" ∨ X = "ITaskRepository")
             caching_followed "TaskManagerService").
    by left.
Defined.

(** C8 as stated fails: with the contract registered to
    [AuditedRepository], whose constructor takes the contract again, the
    graph that a request for [Dashboard] reaches has a cycle; but the
    parameter [audit_log], before the edge of the cycle, can be neither
    injected nor defaulted, so the cycle is never entered: the request for
    the contract raises at once, and the request for [Dashboard], whose
    parameter has a default, returns an object, with any fuel from 2 on. *)
Lemma C8_counterexample :
  tc (request_graph Examples audited_container "Dashboard")
    "ITaskRepository" "ITaskRepository"
  ∧ (∀ fuel w,
       resolve Examples (S fuel) audited_container "ITaskRepository" w
       = Raise (mkExc ValueError
                  "Cannot resolve dependency 'audit_log' for 'AuditedRepository': Missing type hint or default value.")
           w)
  ∧ ∀ fuel, 2 ≤ fuel →
      ∃ w, resolve Examples fuel audited_container "Dashboard" fresh_world
           = Return (VRef 0) w
           ∧ heap w = [{| ob_type := "Dashboard"; ob_dict := [("repo", VNone)] |}].
Proof.
  split; [|split].
  - apply tc_once. split.
    + apply rtc_once. split; [reflexivity|].
      exists (typed_default "repo" "ITaskRepository" VNone).
      split; [|split; [discriminate|reflexivity]].
      apply list_elem_of_further, list_elem_of_here.
    + split; [reflexivity|].
      exists (typed "inner" "ITaskRepository").
      split; [|split; [discriminate|reflexivity]].
      do 2 apply list_elem_of_further. apply list_elem_of_here.
  - intros fuel w. reflexivity.
  - intros fuel Hle. eexists.
    rewrite (resolve_mono Examples 2 fuel audited_container "Dashboard" fresh_world Hle)
      by discriminate.
    split; [vm_compute; reflexivity|reflexivity].
Qed.


(** ** Checks on concrete values *)

Example rsplit_dot_locator :
  rsplit_dot "data.csv_task_repository.CsvTaskRepository"
  = ["data.csv_task_repository"; "CsvTaskRepository"].
Proof. reflexivity. Qed.

Example rsplit_dot_no_dot : rsplit_dot "CsvTaskRepository" = ["CsvTaskRepository"].
Proof. reflexivity. Qed.

Example dirname_of_module :
  dirname "/srv/taskbuddy_project/data/csv_task_repository.py"
  = "/srv/taskbuddy_project/data".
Proof. reflexivity. Qed.

Example dirname_of_root : dirname "/srv" = "/".
Proof. reflexivity. Qed.

Example dirname_corner_cases :
  dirname "f.py" = "" ∧ dirname "//a" = "//" ∧ dirname "/a//b" = "/a".
Proof. by repeat split. Qed.

Example path_join_examples :
  path_join "/srv" ["data"; "csv"; "sample_data.csv"] = "/srv/data/csv/sample_data.csv"
  ∧ path_join "" ["data"] = "data"
  ∧ path_join "/" ["data"] = "/data"
  ∧ path_join "a/" ["b"] = "a/b"
  ∧ path_join "a" ["/b"] = "/b".
Proof. by repeat split. Qed.

Example default_file_path_example :
  default_file_path "/srv/taskbuddy_project/data/csv_task_repository.py"
  = "/srv/data/csv/sample_data.csv".
Proof. reflexivity. Qed.

(** [run_application] up to the service: two objects, the repository
    first. *)
Example wire_application_example :
  ∃ w, wire_application "/srv/taskbuddy_project/data/csv_task_repository.py" 3 fresh_world
       = Return (VRef 1) w
       ∧ heap w = [ csv_instance "/srv/taskbuddy_project/data/csv_task_repository.py";
                    service_instance 0 ].
Proof. eexists. split; [vm_compute; reflexivity|reflexivity]. Qed.

(** A class with the five operations that does not inherit from the
    contract is refused, and so is a name that is not a class. *)
Example register_duck :
  register Examples empty_container "ITaskRepository" "tests.fakes.DuckRepository"
    fresh_world
  = Raise (mkExc ValueError
             "Concrete implementation DuckRepository does not implement abstraction ITaskRepository.")
      fresh_world.
Proof. reflexivity. Qed.

Example register_not_a_class :
  register Examples empty_container "ITaskRepository" "tests.fakes.logger" fresh_world
  = Raise (mkExc TypeError "issubclass() arg 1 must be a class") fresh_world.
Proof. reflexivity. Qed.

Example register_missing_module :
  register Examples empty_container "ITaskRepository" "data.db_task_repository.DbTaskRepository"
    fresh_world
  = Raise (mkExc ValueError
             "Failed to load concrete implementation 'data.db_task_repository.DbTaskRepository'. Please check the path. Error: No module named 'data.db_task_repository'")
      fresh_world.
Proof. reflexivity. Qed.

(** A parameter with a default does not stop a cycle that is entered: the
    recursion does not come back with a [ValueError] to fall back from. *)
Example buffered_cycle :
  resolve Examples 50 buffered_container "ITaskRepository" fresh_world = OutOfFuel.
Proof. vm_compute. reflexivity. Qed.

(** A positional-only parameter with a default: the default goes into the
    keyword arguments, and the call refuses it. *)
Example positional_only_default :
  resolve Examples 1 empty_container "Legacy" fresh_world
  = Raise (mkExc TypeError
             "Legacy.__init__() got some positional-only arguments passed as keyword arguments: 'level'")
      {| heap := [];
         log := [ {| levelname := DEBUG;
                     message := "Resolving Legacy with dependencies: ['level']" |} ] |}.
Proof. reflexivity. Qed.

(** The service is built on whatever subclass of the contract is
    registered, and refuses an object that is not one. *)
Example service_on_memory_repository :
  ∃ w, resolve Examples 2 memory_container "TaskManagerService" fresh_world
       = Return (VRef 1) w
       ∧ heap w = [ {| ob_type := "InMemoryRepository"; ob_dict := [] |};
                    service_instance 0 ].
Proof. eexists. split; [vm_compute; reflexivity|reflexivity]. Qed.

(** * Further properties *)

(** ** The container *)

Lemma rsplit_last_None sep s : rsplit_last sep s = None ↔ occurs sep s = false.
Proof.
  induction s as [|c s IH]; simpl; [done|].
  destruct (rsplit_last sep s) as [[a b]|].
  - split; [done|]. intros [_ H]%orb_false_iff. apply IH in H. done.
  - destruct (Ascii.eqb c sep); simpl; [done|]. split; [intros _; by apply IH|done].
Qed.

(** What [rsplit] gives back is the string, cut at a separator after which
    there is none. *)
Lemma rsplit_last_Some sep s a b :
  rsplit_last sep s = Some (a, b) ↔ s = a +:+ String sep b ∧ occurs sep b = false.
Proof.
  revert a. induction s as [|c s IH]; intros a; simpl.
  - split; [done|]. intros [H _]. by destruct a.
  - destruct (rsplit_last sep s) as [[a' b']|] eqn:Hs.
    + split.
      * intros [= <- <-]. destruct (proj1 (IH a') eq_refl) as [-> ?]. done.
      * intros [H Hb]. destruct a as [|c0 a0]; simpl in H.
        -- injection H as -> ->. apply rsplit_last_None in Hb. congruence.
        -- injection H as -> H. f_equal. f_equal.
           ++ f_equal. assert (Some (a', b') = Some (a0, b)) as [= ->]; [|done].
              by apply IH.
           ++ assert (Some (a', b') = Some (a0, b)) as [= _ ->]; [|done].
              by apply IH.
    + apply rsplit_last_None in Hs. destruct (Ascii.eqb c sep) eqn:Hc.
      * apply Ascii.eqb_eq in Hc as ->. split.
        -- by intros [= <- <-].
        -- intros [H Hb]. destruct a as [|c0 a0]; simpl in H.
           ++ by injection H as ->.
           ++ injection H as -> H. rewrite H in Hs. exfalso. clear -Hs.
              induction a0 as [|c1 a0 IH']; simpl in Hs.
              ** by rewrite Ascii.eqb_refl in Hs.
              ** apply orb_false_iff in Hs as [_ Hs]. by apply IH'.
      * split; [done|]. intros [H Hb]. destruct a as [|c0 a0]; simpl in H.
        -- injection H as -> _. by rewrite Ascii.eqb_refl in Hc.
        -- injection H as -> H. rewrite H in Hs. exfalso. clear -Hs.
           induction a0 as [|c1 a0 IH']; simpl in Hs.
           ++ by rewrite Ascii.eqb_refl in Hs.
           ++ apply orb_false_iff in Hs as [_ Hs]. by apply IH'.
Qed.

Section ContainerMore.
Variable rt : Runtime.
Implicit Types (self : DependencyContainer) (w : World) (fuel : nat).

Lemma rsplit_dot_parts m c :
  occurs "." c = false → rsplit_dot (m +:+ String "." c) = [m; c].
Proof.
  intros Hc. unfold rsplit_dot.
  by rewrite (proj2 (rsplit_last_Some "." (m +:+ String "." c) m c)).
Qed.

(** X1. Locators that are wrong on their face, whatever can be imported:
    a locator without a dot is refused with the [ValueError] that reports
    the failed unpacking; one whose module part is empty with the
    [ValueError] that reports the empty module name; but one whose module
    part is relative (starts with a dot) gets out of [register] as the
    [TypeError] of [importlib], which the [except] clause does not list.
    The container and the world are as they were in all three cases. *)
Theorem register_malformed_locator self C w :
  (∀ path, occurs "." path = false →
     register rt self C path w
     = Raise (failed_to_load path "not enough values to unpack (expected 2, got 1)") w)
  ∧ (∀ c, occurs "." c = false →
       register rt self C (String "." c) w
       = Raise (failed_to_load (String "." c) "Empty module name") w)
  ∧ (∀ m c, occurs "." c = false →
       register rt self C (String "." m +:+ String "." c) w
       = Raise (mkExc TypeError
                  ("the 'package' argument is required to perform a relative import for "
                   +:+ repr_str (String "." m))) w).
Proof.
  split; [|split].
  - intros path Hdot. unfold register, load, rsplit_dot.
    by rewrite (proj2 (rsplit_last_None "." path) Hdot).
  - intros c Hc. unfold register, load.
    pose proof (rsplit_dot_parts "" c Hc) as Hparts.
    change ("" +:+ String "." c) with (String "." c) in Hparts.
    by rewrite Hparts.
  - intros m c Hc. unfold register, load.
    rewrite (rsplit_dot_parts (String "." m) c Hc).
    unfold import_module. simpl. by destruct m.
Qed.

Lemma keys_dict_set (d : list (string * Value)) k v :
  k ∉ keys d → keys (dict_set d k v) = keys d ++ [k].
Proof.
  induction d as [|[k' v'] d IH]; simpl; [done|]. intros Hk.
  apply not_elem_of_cons in Hk as [Hne Hk].
  destruct (String.eqb k' k) eqn:Heq.
  - apply String.eqb_eq in Heq. congruence.
  - simpl. f_equal. by apply IH.
Qed.

Lemma resolve_dependencies_keys (r : ClassId → M Value) c params :
  ∀ deps w deps' w',
    NoDup (keys deps ++ argument_names params) →
    resolve_dependencies rt r c params deps w = Return deps' w' →
    keys deps' = keys deps ++ argument_names params.
Proof.
  induction params as [|p params IH]; intros deps w deps' w' Hnd.
  - simpl. intros [= <- _]. unfold argument_names. simpl. by rewrite app_nil_r.
  - simpl. unfold argument_names in *. simpl in *.
    destruct (String.eqb (Param.name p) "self") eqn:Hself.
    + apply String.eqb_eq in Hself. rewrite filter_cons_False in * by naive_solver.
      by apply IH.
    + apply String.eqb_neq in Hself. rewrite filter_cons_True in * by done.
      unfold mbind, M_bind, bind.
      assert (Param.name p ∉ keys deps) as Hfresh.
      { apply NoDup_app in Hnd as (_ & Hdisj & _). intros Hin.
        apply (Hdisj _ Hin). apply list_elem_of_here. }
      assert (∀ v, NoDup (keys (dict_set deps (Param.name p) v)
                          ++ filter (λ n, n ≠ "self") (map Param.name params))) as Hnd'.
      { intros v. rewrite keys_dict_set by done. by rewrite <- app_assoc. }
      assert (∀ v, keys (dict_set deps (Param.name p) v)
                   ++ filter (λ n, n ≠ "self") (map Param.name params)
                   = keys deps ++ Param.name p
                       :: filter (λ n, n ≠ "self") (map Param.name params)) as Heq.
      { intros v. rewrite keys_dict_set by done. by rewrite <- app_assoc. }
      destruct (injectable p) as [D|].
      * unfold try_except, mbind, M_bind, bind.
        destruct (r D w) as [v wv|e wv|]; try done.
        -- simpl. intros H. rewrite <- (Heq v). by eapply IH.
        -- destruct (isinstance_exc e ValueError); try done.
           destruct (Param.default p) as [d|]; try done. simpl.
           intros H. rewrite <- (Heq d). by eapply IH.
      * destruct (Param.default p) as [d|]; try done. simpl.
        intros H. rewrite <- (Heq d). by eapply IH.
Qed.

(** X2. One argument per parameter: when [resolve] returns, the class was
    called with keyword arguments whose keys are exactly the names of its
    constructor's parameters other than [self], each once and in the
    order of the signature; so the call never lacks an argument and never
    has one the signature does not name. *)
Theorem resolve_passes_every_parameter fuel self A w v w' :
  let T := default A (_registrations self !! A) in
  NoDup (map Param.name (__init__ (classes rt T))) →
  resolve rt fuel self A w = Return v w' →
  ∃ fuel' deps w1 d,
    fuel = S fuel'
    ∧ resolve_dependencies rt (resolve rt fuel' self) T (__init__ (classes rt T)) [] w
      = Return deps w1
    ∧ keys deps = argument_names (__init__ (classes rt T))
    ∧ init_result (construct rt T (heap w1) deps) = inr d.
Proof.
  intros T Hnd Hres.
  destruct (resolve_returns rt _ _ _ _ _ _ Hres)
    as (fuel' & deps & w1 & d & -> & _ & Hloop & Hinit & _).
  exists fuel', deps, w1, d. split; [done|]. split; [done|]. split; [|done].
  apply resolve_dependencies_keys in Hloop; [done|]. simpl.
  unfold argument_names. by apply NoDup_filter.
Qed.

Lemma resolve_dependencies_defaults (r : ClassId → M Value) c params :
  Forall settled_by_default params →
  ∀ deps w, resolve_dependencies rt r c params deps w
            = Return (defaults_of params deps) w.
Proof.
  induction 1 as [|p params Hp _ IH]; intros deps w; simpl; [done|].
  destruct (String.eqb (Param.name p) "self") eqn:Hself; [apply IH|].
  destruct Hp as [Hp|[Hinj [d Hd]]].
  { apply String.eqb_neq in Hself. done. }
  rewrite Hinj, Hd. unfold mbind, M_bind, bind. simpl. apply IH.
Qed.

(** X3. A class whose constructor parameters all have defaults and are not
    injected (no annotation, or not positional-or-keyword), in particular
    one with [def __init__(self)], needs no registration and no recursive
    call: [resolve] with any fuel calls it with exactly its defaults, and
    returns or raises as that call does. *)
Theorem resolve_defaults_only fuel self A w :
  let T := default A (_registrations self !! A) in
  isabstract rt T = false →
  Forall settled_by_default (__init__ (classes rt T)) →
  resolve rt (S fuel) self A w
  = (emit DEBUG ("Resolving " +:+ __name__ (classes rt T) +:+ " with dependencies: "
                 +:+ repr_list (keys (defaults_of (__init__ (classes rt T)) [])));;
     instantiate rt T (defaults_of (__init__ (classes rt T)) [])) w.
Proof.
  intros T Habs Hall. rewrite resolve_S. fold T. cbv zeta. rewrite Habs.
  unfold mbind at 1. unfold M_bind, bind.
  by rewrite resolve_dependencies_defaults.
Qed.

(** X4. A class that defines no [__init__] shows the signature of
    [object.__init__], and its [*args] can be neither injected nor
    defaulted: such a class ([str], [int], any plain class) is never
    resolved.  So a parameter annotated with one gets its default, after a
    warning, or, without default, makes [resolve] raise; it is never
    injected. *)
Theorem resolve_class_without_init fuel self D :
  let T := default D (_registrations self !! D) in
  isabstract rt T = false →
  __init__ (classes rt T) = object_init_signature →
  (∀ w, resolve rt (S fuel) self D w
        = Raise (cannot_resolve rt "args" T "Missing type hint or default value.") w)
  ∧ (∀ (c : ClassId) p deps w,
       Param.name p ≠ "self" → injectable p = Some D →
       resolve_parameter rt (resolve rt (S fuel) self) c p deps w
       = match Param.default p with
         | Some d =>
             Return (dict_set deps (Param.name p) d)
               (logged w (optional_warning rt (Param.name p) c))
         | None =>
             Raise (cannot_resolve rt (Param.name p) c
                      (exc_str (cannot_resolve rt "args" T
                                  "Missing type hint or default value."))) w
         end).
Proof.
  intros T Habs Hsig.
  assert (∀ w, resolve rt (S fuel) self D w
               = Raise (cannot_resolve rt "args" T
                          "Missing type hint or default value.") w) as Hres.
  { intros w. rewrite resolve_S. fold T. cbv zeta. by rewrite Habs, Hsig. }
  split; [done|]. intros c p deps w Hname Hinj.
  rewrite (resolve_parameter_typed rt _ _ _ D) by done. by rewrite Hres.
Qed.


End ContainerMore.

(** ** The default file of the CSV repository *)

Lemma string_app_assoc (a b c : string) : (a +:+ b) +:+ c = a +:+ (b +:+ c).
Proof.
  induction a as [|x a IH]; [done|].
  change (String x ((a +:+ b) +:+ c) = String x (a +:+ (b +:+ c))). by f_equal.
Qed.

Lemma rsplit_last_app sep d f :
  occurs sep f = false → rsplit_last sep (d +:+ String sep f) = Some (d, f).
Proof. intros Hf. by apply rsplit_last_Some. Qed.

Lemma endswith_slash_app d f :
  f ≠ "" → endswith_slash (d +:+ f) = endswith_slash f.
Proof.
  intros Hf. induction d as [|c d IH]; [done|].
  change (String c d +:+ f) with (String c (d +:+ f)). simpl.
  destruct (d +:+ f) eqn:Hdf; [|done].
  destruct d; simpl in Hdf; [done|discriminate].
Qed.

Lemma endswith_slash_occurs f : occurs "/" f = false → endswith_slash f = false.
Proof.
  induction f as [|c f IH]; [done|]. simpl. intros [Hc Hf]%orb_false_iff.
  destruct f; [done|]. by apply IH.
Qed.

Lemma rstrip_slash_app d :
  d ≠ "" → endswith_slash d = false → rstrip_slash (d +:+ "/") = d.
Proof.
  induction d as [|c d IH]; [done|]. intros _ Hend.
  change (String c d +:+ "/") with (String c (d +:+ "/")). simpl.
  destruct d as [|c' d].
  - simpl in *. by rewrite Hend.
  - rewrite IH; [done|done|exact Hend].
Qed.

Lemma all_slashes_app d :
  d ≠ "" → endswith_slash d = false → all_slashes (d +:+ "/") = false.
Proof.
  induction d as [|c d IH]; [done|]. intros _ Hend.
  change (String c d +:+ "/") with (String c (d +:+ "/")). simpl.
  destruct d as [|c' d].
  - simpl in *. by rewrite Hend.
  - rewrite IH; [by rewrite andb_false_r|done|exact Hend].
Qed.

(** The directory of a file in a directory that is not the root. *)
Lemma dirname_file d f :
  d ≠ "" → endswith_slash d = false → occurs "/" f = false →
  dirname (d +:+ String "/" f) = d.
Proof.
  intros Hd Hend Hf. unfold dirname. rewrite rsplit_last_app by done.
  cbv zeta. rewrite all_slashes_app by done. by apply rstrip_slash_app.
Qed.

Lemma path_join_relative d b rest :
  d ≠ "" → endswith_slash d = false → String.prefix "/" b = false →
  path_join d (b :: rest) = path_join (d +:+ String "/" b) rest.
Proof.
  intros Hd Hend Hb. simpl. rewrite Hb, Hend.
  destruct d; [done|]. simpl. done.
Qed.

Lemma component_not_slashed d b :
  b ≠ "" → occurs "/" b = false →
  d +:+ String "/" b ≠ "" ∧ endswith_slash (d +:+ String "/" b) = false.
Proof.
  intros Hb Hocc. split.
  - by destruct d.
  - rewrite endswith_slash_app by done. destruct b; [done|].
    change (endswith_slash (String "/" (String a b)))
      with (endswith_slash (String a b)).
    by apply endswith_slash_occurs.
Qed.

(** X14. Where the default file is: for the module file
    [root/package/directory/file], [CsvTaskRepository] looks by default
    for [root/data/csv/sample_data.csv]: two directories above the
    directory of the module, so beside the package and not inside it. *)
Theorem default_file_path_location root package directory file :
  endswith_slash root = false →
  package ≠ "" → directory ≠ "" →
  occurs "/" package = false → occurs "/" directory = false →
  occurs "/" file = false →
  default_file_path
    (root +:+ String "/" package +:+ String "/" directory +:+ String "/" file)
  = root +:+ "/data/csv/sample_data.csv".
Proof.
  intros Hroot Hp Hd Hop Hod Hof. unfold default_file_path. cbv zeta.
  destruct (component_not_slashed root package Hp Hop) as [Hne1 Hend1].
  destruct (component_not_slashed (root +:+ String "/" package) directory Hd Hod)
    as [Hne2 Hend2].
  rewrite <- !string_app_assoc.
  rewrite (dirname_file _ file Hne2 Hend2 Hof).
  rewrite (dirname_file _ directory Hne1 Hend1 Hod).
  destruct root as [|c root].
  - change ("" +:+ String "/" package) with (String "/" package).
    assert (dirname (String "/" package) = "/") as ->.
    { pose proof (rsplit_last_app "/" "" package Hop) as Hs.
      change ("" +:+ String "/" package) with (String "/" package) in Hs.
      unfold dirname. rewrite Hs. reflexivity. }
    reflexivity.
  - rewrite (dirname_file (String c root) package) by done.
    rewrite path_join_relative by done.
    destruct (component_not_slashed (String c root) "data") as [? ?]; [done..|].
    rewrite path_join_relative by done.
    destruct (component_not_slashed (String c root +:+ "/data") "csv") as [? ?];
      [done..|].
    rewrite path_join_relative by done.
    cbn [path_join]. rewrite !string_app_assoc. reflexivity.
Qed.

(** ** The CSV repository *)



Lemma upper_char_idem c : upper_char (upper_char c) = upper_char c.
Proof.
  destruct ((97 <=? nat_of_ascii c) && (nat_of_ascii c <=? 122)) eqn:H.
  - assert (upper_char c = ascii_of_nat (nat_of_ascii c - 32)) as Hu.
    { unfold upper_char. by rewrite H. }
    apply andb_true_iff in H as [H1%Nat.leb_le H2%Nat.leb_le].
    rewrite Hu. unfold upper_char. rewrite nat_ascii_embedding by lia.
    by rewrite (proj2 (Nat.leb_gt 97 (nat_of_ascii c - 32))) by lia.
  - assert (upper_char c = c) as Hu.
    { unfold upper_char. by rewrite H. }
    by rewrite !Hu.
Qed.

Lemma upper_idem s : upper (upper s) = upper s.
Proof. induction s as [|c s IH]; simpl; [done|]. by rewrite upper_char_idem, IH. Qed.





Section CsvMore.
Context {UUID TaskStatus Task : Type} `{EqDecision UUID}.
Variable path_exists : string → bool.
Variable open_text : string → PyExc + string.
Variable fieldnames : string → list string.
Variable rows : string → list (list (string * option string)).
Variable UUID_of : string → PyExc + UUID.
Variable str_UUID : UUID → string.
Variable TaskStatus_getitem : string → option TaskStatus.
Variable Task_init : string → TaskStatus → UUID → PyExc + Task.
Variable Task_id : Task → UUID.
Variable Task_title : Task → string.
Variable repr_row : list (string * option string) → string.
Variable repr_strs : list string → string.
Variable repr_expected_headers : string.

Let task_of := row_task UUID_of TaskStatus_getitem Task_init.
Let parse_row := read_row UUID_of TaskStatus_getitem Task_init repr_row.
Let parse_rows := read_rows UUID_of TaskStatus_getitem Task_init repr_row.
Let read_all :=
  get_all_tasks path_exists open_text fieldnames rows UUID_of TaskStatus_getitem
    Task_init repr_row repr_strs repr_expected_headers.
Let read_one :=
  get_task_by_id path_exists open_text fieldnames rows UUID_of str_UUID
    TaskStatus_getitem Task_init Task_id Task_title repr_row repr_strs
    repr_expected_headers.

Lemma read_row_task n row : (parse_row n row).1 = task_of row.
Proof.
  unfold parse_row, task_of, read_row, row_task.
  destruct (row_get row "id") as [[i|]|]; try done.
  destruct (row_get row "title") as [[t|]|]; try done.
  destruct (row_get row "status") as [[s|]|]; try done.
  destruct (_ || _); [done|].
  destruct (UUID_of _) as [e|u].
  { destruct (isinstance_exc e ValueError); [done|].
    by destruct (isinstance_exc e KeyError). }
  destruct (TaskStatus_getitem _) as [st|]; [|done].
  destruct (Task_init _ _ _) as [e|task]; [|done].
  destruct (isinstance_exc e ValueError); [done|].
  by destruct (isinstance_exc e KeyError).
Qed.

Lemma read_rows_tasks rs :
  ∀ n tasks w, ∃ w',
    parse_rows n rs tasks w = Return (tasks ++ omap task_of rs) w'
    ∧ heap w' = heap w.
Proof.
  induction rs as [|row rs IH]; intros n tasks w.
  - exists w. simpl. by rewrite app_nil_r.
  - unfold parse_rows. simpl. pose proof (read_row_task n row) as Hrow.
    unfold parse_row in Hrow.
    destruct (read_row _ _ _ _ n row) as [t r]. simpl in Hrow. subst t.
    unfold mbind, M_bind, bind.
    destruct r as [r|]; simpl.
    + destruct (task_of row) as [task|]; simpl.
      * destruct (IH (S n) (tasks ++ [task])
                    {| heap := heap w; log := log w ++ [{| levelname := levelname r;
                                                           message := message r |}] |})
          as (w' & Hw' & Hh).
        exists w'. unfold parse_rows in Hw'. rewrite Hw'.
        by rewrite <- app_assoc.
      * apply (IH (S n) tasks
                 {| heap := heap w; log := log w ++ [{| levelname := levelname r;
                                                        message := message r |}] |}).
    + destruct (task_of row) as [task|]; simpl.
      * destruct (IH (S n) (tasks ++ [task]) w) as (w' & Hw' & Hh).
        exists w'. unfold parse_rows in Hw'. rewrite Hw'. by rewrite <- app_assoc.
      * apply IH.
Qed.


Lemma get_all_tasks_open_error self w e :
  path_exists (file_path self) = true →
  open_text (file_path self) = inl e →
  ∃ r, read_all self w = Raise e (logged w r)
       ∧ levelname r
         = if isinstance_exc e FileNotFoundError then WARNING else CRITICAL.
Proof.
  intros Hex Hopen. unfold read_all, get_all_tasks, try_excepts. rewrite Hex, Hopen.
  simpl. unfold isinstance_exc.
  destruct (exc_issubclass (exc_type e) FileNotFoundError) eqn:Hfnf.
  - eexists. split; [reflexivity|done].
  - assert (exc_issubclass (exc_type e) Exception = true) as ->.
    { by destruct (exc_type e). }
    eexists. split; [reflexivity|done].
Qed.




(** X9. What goes wrong with the file reaches the caller as it is: for a
    missing file [get_task_by_id] raises the [FileNotFoundError] of
    [get_all_tasks], not its own "not found" [ValueError]; and whatever
    opening an existing file raises is raised by both, unchanged, after a
    WARNING record for a [FileNotFoundError] and a CRITICAL one for
    anything else. *)
Theorem reading_errors_reach_the_caller self w :
  (path_exists (file_path self) = false →
   ∀ task_id, ∃ w',
     read_one self task_id w
     = Raise (mkExc FileNotFoundError ("CSV file not found at: " +:+ file_path self)) w')
  ∧ (∀ e, path_exists (file_path self) = true →
          open_text (file_path self) = inl e →
          (∃ r, read_all self w = Raise e (logged w r)
                ∧ levelname r
                  = if isinstance_exc e FileNotFoundError then WARNING else CRITICAL)
          ∧ ∀ task_id, ∃ w', read_one self task_id w = Raise e w').
Proof.
  split.
  - intros Hex task_id. unfold read_one, get_task_by_id, get_all_tasks, try_excepts.
    unfold mbind, M_bind, bind. simpl. rewrite Hex. simpl. eauto.
  - intros e Hex Hopen.
    pose proof (λ w0, get_all_tasks_open_error self w0 e Hex Hopen) as Hall.
    split; [apply Hall|]. intros task_id.
    unfold read_one, get_task_by_id, mbind, M_bind, bind. simpl.
    match goal with
    | |- context [get_all_tasks _ _ _ _ _ _ _ _ _ _ self ?w0] =>
        destruct (Hall w0) as (r & Hr & _); unfold read_all in Hr; rewrite Hr
    end.
    eauto.
Qed.

End CsvMore.

(** ** The service *)

Lemma every_exception_is_an_Exception e : isinstance_exc e Exception = true.
Proof. unfold isinstance_exc. by destruct (exc_type e). Qed.

Section ServiceFacts.
Context {UUID Task : Type}.
Variable Task_pending : string → PyExc + Task.
Variable mark_complete : Task → PyExc + Task.
Variable Task_truthy : Task → bool.
Variable str_Task : Task → string.
Variable str_UUID : UUID → string.

Let all_tasks := @TaskManagerService_get_all_tasks UUID Task.
Let task_by_id := @TaskManagerService_get_task_by_id UUID Task str_UUID.
Let add_new := @TaskManagerService_add_new_task UUID Task Task_pending str_Task.
Let mark := @TaskManagerService_mark_task_complete UUID Task mark_complete Task_truthy
              str_UUID.
Let delete_by_id := @TaskManagerService_delete_task_by_id UUID Task str_UUID.



End ServiceFacts.

(** ** The service on the CSV repository *)

Section CsvServiceFacts.
Context {UUID TaskStatus Task : Type} `{EqDecision UUID}.
Variable path_exists : string → bool.
Variable open_text : string → PyExc + string.
Variable fieldnames : string → list string.
Variable rows : string → list (list (string * option string)).
Variable UUID_of : string → PyExc + UUID.
Variable str_UUID : UUID → string.
Variable TaskStatus_getitem : string → option TaskStatus.
Variable Task_init : string → TaskStatus → UUID → PyExc + Task.
Variable Task_id : Task → UUID.
Variable Task_title : Task → string.
Variable repr_row : list (string * option string) → string.
Variable repr_strs : list string → string.
Variable repr_expected_headers : string.
Variable Task_pending : string → PyExc + Task.
Variable mark_complete : Task → PyExc + Task.
Variable Task_truthy : Task → bool.
Variable str_Task : Task → string.

Let task_of := row_task UUID_of TaskStatus_getitem Task_init.
Let read_all :=
  get_all_tasks path_exists open_text fieldnames rows UUID_of TaskStatus_getitem
    Task_init repr_row repr_strs repr_expected_headers.
Let read_one :=
  get_task_by_id path_exists open_text fieldnames rows UUID_of str_UUID
    TaskStatus_getitem Task_init Task_id Task_title repr_row repr_strs
    repr_expected_headers.
Let service :=
  csv_service path_exists open_text fieldnames rows UUID_of str_UUID
    TaskStatus_getitem Task_init Task_id Task_title repr_row repr_strs
    repr_expected_headers.
Let all_tasks := @TaskManagerService_get_all_tasks UUID Task.
Let task_by_id := @TaskManagerService_get_task_by_id UUID Task str_UUID.
Let add_new := @TaskManagerService_add_new_task UUID Task Task_pending str_Task.
Let mark := @TaskManagerService_mark_task_complete UUID Task mark_complete Task_truthy
              str_UUID.
Let delete_by_id := @TaskManagerService_delete_task_by_id UUID Task str_UUID.

(** [get_all_tasks] of the repository returns or raises. *)
Lemma get_all_tasks_outcome self w :
  (∃ tasks w', read_all self w = Return tasks w' ∧ heap w' = heap w)
  ∨ (∃ e w', read_all self w = Raise e w' ∧ heap w' = heap w
             ∧ (path_exists (file_path self) = false
                ∨ open_text (file_path self) = inl e)).
Proof.
  destruct (path_exists (file_path self)) eqn:Hex.
  - destruct (open_text (file_path self)) as [e|content] eqn:Hopen.
    + right.
      destruct (get_all_tasks_open_error path_exists open_text fieldnames rows UUID_of
                  TaskStatus_getitem Task_init repr_row repr_strs
                  repr_expected_headers self w e Hex Hopen) as (r & Hr & _).
      exists e, (logged w r). split; [exact Hr|]. split; [done|]. by right.
    + left.
      unfold read_all, get_all_tasks, try_excepts. rewrite Hex, Hopen. simpl.
      unfold mbind, M_bind, bind. simpl.
      destruct (String.eqb _ _); simpl; [by eauto|].
      destruct (fieldnames content) as [|f fs]; simpl; [by eauto|].
      destruct (negb _); simpl; [by eauto|].
      match goal with
      | |- context [read_rows _ _ _ _ ?n ?rs ?ts ?w0] =>
          destruct (read_rows_tasks UUID_of TaskStatus_getitem Task_init repr_row
                      rs n ts w0) as (w' & Hrows & Hheap);
          rewrite Hrows
      end.
      simpl. eexists _, _. split; [reflexivity|]. simpl. by rewrite Hheap.
  - right. unfold read_all, get_all_tasks, try_excepts. rewrite Hex. simpl.
    eexists _, _. split; [reflexivity|]. split; [done|]. by left.
Qed.

Lemma read_one_outcome self task_id w :
  (∃ task w', read_one self task_id w = Return task w')
  ∨ (∃ e w', read_one self task_id w = Raise e w').
Proof.
  unfold read_one, get_task_by_id, mbind, M_bind, bind. simpl.
  match goal with
  | |- context [get_all_tasks _ _ _ _ _ _ _ _ _ _ self ?w0] =>
      destruct (get_all_tasks_outcome self w0)
        as [(tasks & w1 & Hr & _)|(e & w1 & Hr & _)];
      unfold read_all in Hr; rewrite Hr
  end.
  - destruct (find_task _ _ _); simpl; eauto.
  - eauto.
Qed.

Lemma task_by_id_returns self task_id w :
  ∃ r w', task_by_id (service self) task_id w = Return r w'.
Proof.
  unfold task_by_id, TaskManagerService_get_task_by_id, try_excepts, mbind, M_bind, bind.
  simpl.
  match goal with
  | |- context [get_task_by_id _ _ _ _ _ _ _ _ _ _ _ _ _ self task_id ?w0] =>
      destruct (read_one_outcome self task_id w0) as [(t & w1 & Hr)|(e & w1 & Hr)];
      unfold read_one in Hr; rewrite Hr
  end.
  - eauto.
  - simpl. destruct (isinstance_exc e ValueError); [by eauto|].
    rewrite every_exception_is_an_Exception. eauto.
Qed.

Lemma read_all_fails self w :
  path_exists (file_path self) = false ∨ (∃ e, open_text (file_path self) = inl e) →
  ∃ e w', read_all self w = Raise e w' ∧ heap w' = heap w.
Proof.
  intros Hbad.
  destruct (get_all_tasks_outcome self w)
    as [(ts & w1 & Hr & _)|(e & w1 & Hr & Hh & _)]; [|by eauto].
  exfalso. destruct (path_exists (file_path self)) eqn:Hex.
  - destruct Hbad as [?|[e He]]; [done|].
    destruct (get_all_tasks_open_error path_exists open_text fieldnames rows UUID_of
                TaskStatus_getitem Task_init repr_row repr_strs
                repr_expected_headers self w e Hex He) as (r & Hr' & _).
    unfold read_all in Hr. congruence.
  - unfold read_all, get_all_tasks, try_excepts in Hr. rewrite Hex in Hr. done.
Qed.

Lemma all_tasks_csv self w :
  ∃ tasks w',
    all_tasks (service self) w = Return tasks w'
    ∧ heap w' = heap w
    ∧ (path_exists (file_path self) = false
       ∨ (∃ e, open_text (file_path self) = inl e) → tasks = []).
Proof.
  set (w0 := logged w {| levelname := INFO;
                         message := "Retrieving all tasks from repository." |}).
  unfold all_tasks, TaskManagerService_get_all_tasks, try_excepts, mbind, M_bind, bind.
  simpl.
  destruct (get_all_tasks_outcome self w0)
    as [(ts & w1 & Hr & Hh)|(e & w1 & Hr & Hh & _)];
    unfold read_all, w0, logged in Hr; rewrite Hr.
  - exists ts, w1. split; [done|]. split; [done|]. intros Hbad.
    destruct (read_all_fails self w0 Hbad) as (e & w2 & Hr' & _).
    unfold read_all, w0, logged in Hr'. congruence.
  - simpl. rewrite every_exception_is_an_Exception. eexists [], _.
    split; [reflexivity|]. by split.
Qed.


(** X12. Nothing can be written through the service on the CSV
    repository: [add_new_task] raises the [NotImplementedError] of the
    repository for every title whose task can be built;
    [delete_task_by_id] returns [False] for every id, without the file
    being read; and [mark_task_complete] returns [False] for every id,
    whether the task is in the file or not, and never [True]. *)
Theorem csv_service_writes self w :
  (∀ title task,
     Task_pending title = inr task →
     ∃ w', add_new (service self) title w
           = Raise (mkExc NotImplementedError
                      "add_task is not implemented for CsvTaskRepository yet.") w'
           ∧ heap w' = heap w)
  ∧ (∀ task_id,
       delete_by_id (service self) task_id w
       = Return false
           (logged
              (logged w {| levelname := INFO;
                           message := "Attempting to delete task with ID: "
                                      +:+ str_UUID task_id |})
              {| levelname := ERROR;
                 message := "Error deleting task " +:+ str_UUID task_id
                            +:+ ": delete_task is not implemented for CsvTaskRepository yet." |}))
  ∧ ((∀ task, ∃ task', mark_complete task = inr task') →
     ∀ task_id, ∃ w', mark (service self) task_id w = Return false w').
Proof.
  split; [|split].
  - intros title task Hnew.
    unfold add_new, TaskManagerService_add_new_task, try_excepts, mbind, M_bind, bind,
      lift. simpl. rewrite Hnew. simpl. eexists. split; [reflexivity|done].
  - intros task_id. reflexivity.
  - intros Hmc task_id.
    unfold mark, TaskManagerService_mark_task_complete. unfold mbind at 1 2.
    unfold M_bind, bind, emit.
    match goal with
    | |- context [TaskManagerService_get_task_by_id _ _ _ ?w0] =>
        destruct (task_by_id_returns self task_id w0) as (r & w1 & Hr);
        unfold task_by_id in Hr; rewrite Hr
    end.
    destruct r as [t|]; [|simpl; by eauto].
    destruct (Task_truthy t); [|simpl; by eauto].
    destruct (Hmc t) as [t' Ht']. unfold mbind, M_bind, bind, lift. rewrite Ht'.
    simpl. unfold try_excepts. simpl. eauto.
Qed.


(** ** main.py on the CSV repository *)

Variable abspath_file : string.
Variable call_get_all_tasks : Value → M (list Task).

Let run := run_application abspath_file call_get_all_tasks str_Task.

Lemma bind_Return {A B} (m : M A) (k : A → M B) w a w' :
  m w = Return a w' → (m ≫= k) w = k a w'.
Proof. intros H. unfold mbind, M_bind, bind. by rewrite H. Qed.

Lemma try_excepts_Return {A} (m : M A) handlers w a w' :
  m w = Return a w' → try_excepts m handlers w = Return a w'.
Proof. intros H. unfold try_excepts. by rewrite H. Qed.

Lemma log_tasks_returns tasks w :
  log_tasks str_Task tasks w
  = Return tt
      {| heap := heap w;
         log := log w ++ map (λ task, {| levelname := INFO;
                                         message := "  - " +:+ str_Task task |}) tasks |}.
Proof.
  revert w. induction tasks as [|task tasks IH]; intros w; simpl.
  - rewrite app_nil_r. by destruct w.
  - unfold mbind, M_bind, bind. simpl. rewrite IH. simpl. by rewrite <- app_assoc.
Qed.

(** X13. The application on its own wiring: when a method call on a
    [TaskManagerService] object that holds a [CsvTaskRepository] object
    runs the method of the service on that repository,
    [run_application] never ends the process: it builds the repository
    and the service, asks the service for the tasks of the default file,
    logs their number and each of them, and returns after "TaskBuddy
    application finished."; the handler of its second [try] is never
    entered, and with the default file missing or unreadable it reports
    0 tasks. *)
Theorem run_application_on_csv fuel mode w :
  (∀ w0 svc repo path,
     heap w0 !! svc = Some (service_instance repo) →
     heap w0 !! repo
     = Some {| ob_type := "CsvTaskRepository";
               ob_dict := [("file_path", VStr path)] |} →
     call_get_all_tasks (VRef svc) w0 = all_tasks (service {| file_path := path |}) w0) →
  ∃ tasks w1 w2,
    heap w1 = heap w ++ [csv_instance abspath_file; service_instance (length (heap w))]
    ∧ all_tasks (service {| file_path := default_file_path abspath_file |}) w1
      = Return tasks w2
    ∧ run (3 + fuel) mode w
      = Return {| printed := []; exit_status := None |}
          {| heap := heap w1; log := log w2 ++ loaded_records str_Task tasks |}
    ∧ (path_exists (default_file_path abspath_file) = false
       ∨ (∃ e, open_text (default_file_path abspath_file) = inl e) →
       tasks = []).
Proof.
  intros Hcall. unfold run, run_application.
  erewrite bind_Return; [|reflexivity].
  erewrite bind_Return; [|reflexivity].
  erewrite bind_Return; [|reflexivity].
  erewrite bind_Return; [|reflexivity].
  match goal with
  | |- context [try_excepts (resolve _ _ ?c _ ≫= _) _] => set (container := c)
  end.
  match goal with
  | |- ∃ _ _ _, _ ∧ _ ∧ _ ?wc = _ ∧ _ => set (w_c := wc)
  end.
  destruct (resolve_TaskManagerService abspath_file fuel container w_c)
    as (w3 & Hres & Hheap); [done..|].
  erewrite bind_Return; cycle 1.
  { apply try_excepts_Return. erewrite bind_Return; [|exact Hres]. reflexivity. }
  cbv beta iota.
  match goal with
  | |- ∃ _ _ _, _ ∧ _ ∧ (try_excepts (call_get_all_tasks _ ≫= _) _ ≫= _) ?w4 = _ ∧ _ =>
      set (w_s := w4)
  end.
  destruct (all_tasks_csv {| file_path := default_file_path abspath_file |} w_s)
    as (tasks & w5 & Hall & Hh & Hempty).
  exists tasks, w_s, w5.
  assert (heap w_s = heap w ++ [csv_instance abspath_file;
                                service_instance (length (heap w))]) as Hws.
  { unfold w_s. cbn [heap]. rewrite Hheap. reflexivity. }
  split; [exact Hws|]. split; [exact Hall|]. split; [|exact Hempty].
  erewrite bind_Return; cycle 1.
  { apply try_excepts_Return. erewrite bind_Return; cycle 1.
    { etransitivity; [|exact Hall].
      apply (Hcall w_s (S (length (heap w))) (length (heap w))
               (default_file_path abspath_file)).
      - rewrite Hws.
        change [csv_instance abspath_file; service_instance (length (heap w))]
          with ([csv_instance abspath_file] ++ [service_instance (length (heap w))]).
        rewrite app_assoc. apply list_lookup_middle. rewrite length_app. simpl. lia.
      - rewrite Hws. by apply list_lookup_middle. }
    erewrite bind_Return; [|reflexivity]. apply log_tasks_returns. }
  erewrite bind_Return; [|reflexivity].
  unfold loaded_records, mret, M_ret, ret. cbn [heap log]. f_equal. f_equal.
  - exact Hh.
  - rewrite <- !app_assoc. reflexivity.
Qed.

End CsvServiceFacts.

(** ** config/logging_setup.py *)

Lemma removeHandler_middle x pre rest :
  handler_id x ∉ map handler_id pre →
  removeHandler x (pre ++ x :: rest) = pre ++ rest.
Proof.
  induction pre as [|h pre IH]; intros Hx; simpl.
  - by rewrite Nat.eqb_refl.
  - apply not_elem_of_cons in Hx as [Hh Hx].
    destruct (Nat.eqb_spec (handler_id h) (handler_id x)) as [Heq|_]; [done|].
    by rewrite IH.
Qed.

Lemma remove_each_from steps :
  ∀ pre rest,
    NoDup (map handler_id (pre ++ rest)) →
    length rest ≤ steps →
    remove_each steps (length pre) (pre ++ rest)
    = (length pre + Nat.div2 (S (length rest)), pre ++ odd_positions rest).
Proof.
  induction steps as [|steps IH]; intros pre rest Hnd Hlen.
  - destruct rest; [|simpl in Hlen; lia]. simpl. rewrite app_nil_r. f_equal. lia.
  - simpl. destruct rest as [|x [|y rest]].
    + simpl. rewrite app_nil_r, lookup_ge_None_2 by lia. f_equal. lia.
    + rewrite list_lookup_middle by done.
      rewrite removeHandler_middle.
      2:{ rewrite map_app in Hnd. apply NoDup_app in Hnd as (_ & Hnd & _).
          intros Hin. apply (Hnd _ Hin). simpl. apply list_elem_of_here. }
      simpl. rewrite !app_nil_r.
      destruct steps; simpl.
      * f_equal. lia.
      * rewrite lookup_ge_None_2 by lia. f_equal. lia.
    + rewrite list_lookup_middle by done.
      rewrite removeHandler_middle.
      2:{ rewrite map_app in Hnd. apply NoDup_app in Hnd as (_ & Hnd & _).
          intros Hin. apply (Hnd _ Hin). simpl. apply list_elem_of_here. }
      replace (S (length pre)) with (length (pre ++ [y]))
        by (rewrite length_app; simpl; lia).
      replace (pre ++ y :: rest) with ((pre ++ [y]) ++ rest)
        by (by rewrite <- app_assoc).
      rewrite IH.
      * rewrite length_app, <- app_assoc. simpl. f_equal. lia.
      * rewrite <- app_assoc. simpl.
        rewrite map_app in Hnd |- *. simpl in Hnd |- *.
        apply NoDup_app in Hnd as (Hpre & Hdisj & Hrest).
        apply NoDup_cons in Hrest as [Hx Hrest].
        apply NoDup_app. split; [done|]. split; [|done].
        intros z Hz Hin. apply (Hdisj z Hz). by apply list_elem_of_further.
      * simpl in Hlen. lia.
Qed.

(** X15. The loop that removes the handlers of the root logger while it
    walks over them removes every second one only: of handlers that are
    all different it leaves those at the odd positions, having gone
    through half of the positions, and ends because no handler is at the
    position it has reached; it is [clear()] that empties the list. *)
Theorem remove_each_leaves_every_second handlers :
  NoDup (map handler_id handlers) →
  remove_each (length handlers) 0 handlers
  = (Nat.div2 (S (length handlers)), odd_positions handlers)
  ∧ odd_positions handlers !! Nat.div2 (S (length handlers)) = None
  ∧ length (odd_positions handlers) = Nat.div2 (length handlers).
Proof.
  intros Hnd. split; [|split].
  - apply (remove_each_from (length handlers) [] handlers); [done|lia].
  - apply lookup_ge_None.
    assert (∀ l : list Handler, length (odd_positions l) = Nat.div2 (length l)) as Hodd.
    { fix IH 1. intros [|a [|b l]]; [done..|]. simpl. by rewrite IH. }
    rewrite Hodd. clear.
    assert (∀ n, Nat.div2 n ≤ Nat.div2 (S n)) as Hle.
    { fix IH 1. intros [|[|n]]; [simpl; lia..|].
      change (S (Nat.div2 n) ≤ S (Nat.div2 (S n))). specialize (IH n). lia. }
    apply Hle.
  - generalize handlers. fix IH 1. intros [|a [|b l]]; [done..|]. simpl. by rewrite IH.
Qed.

Section LoggingFacts.
Variable DEFAULT_DEBUG_MODE : string.

Let mode_of := effective_debug_mode DEFAULT_DEBUG_MODE.
Let setup := setup_logging DEFAULT_DEBUG_MODE.
Let setup_each := setup_logging_each DEFAULT_DEBUG_MODE.

(** The handler that the call number [n] makes. *)
Let console (n : nat) : Handler :=
  {| handler_id := n; is_StreamHandler := true;
     handler_formatter := Some console_format |}.

Lemma setup_logging_returns override logging w :
  setup override logging w
  = Return
      {| root_level := if String.eqb (mode_of override) "dev" then DEBUG else INFO;
         root_handlers := [console (created logging)];
         logger_levels :=
           if String.eqb (mode_of override) "test"
           then <["data.csv_task_repository" := ERROR]> (logger_levels logging)
           else logger_levels logging;
         created := S (created logging) |}
      (logged w {| levelname := DEBUG;
                   message := "DEBUG - Logging configured for '"
                              +:+ mode_of override +:+ "' mode." |}).
Proof.
  unfold setup, setup_logging. destruct (root_handlers logging); reflexivity.
Qed.

(** X16. Calling [setup_logging] again and again: after any number of
    calls, in whatever modes and whatever handlers the root logger had
    before, the root logger has exactly one handler, the console handler
    made by the last call, and the level of the last mode ([DEBUG] for
    [dev], [INFO] otherwise); but the [ERROR] level that a call in [test]
    mode sets on the logger of the CSV repository is never taken back by
    a later call, and no other logger's level is touched. *)
Theorem setup_logging_repeated earlier last logging w :
  ∃ logging' w',
    setup_each (earlier ++ [last]) logging w = Return logging' w'
    ∧ heap w' = heap w
    ∧ root_handlers logging' = [console (created logging + length earlier)]
    ∧ root_level logging'
      = (if String.eqb (mode_of last) "dev" then DEBUG else INFO)
    ∧ logger_levels logging' !! "data.csv_task_repository"
      = (if existsb (λ o, String.eqb (mode_of o) "test") (earlier ++ [last])
         then Some ERROR
         else logger_levels logging !! "data.csv_task_repository")
    ∧ ∀ name, name ≠ "data.csv_task_repository" →
              logger_levels logging' !! name = logger_levels logging !! name.
Proof.
  revert logging w. induction earlier as [|first earlier IH]; intros logging w.
  - simpl. unfold mbind, M_bind, bind. fold setup.
    rewrite setup_logging_returns. eexists _, _. split; [reflexivity|].
    cbn [heap logged root_handlers root_level logger_levels].
    split; [done|]. split; [by rewrite Nat.add_0_r|]. split; [done|].
    destruct (String.eqb (mode_of last) "test"); simpl.
    + split; [by rewrite lookup_insert_eq|]. intros name Hname.
      by rewrite lookup_insert_ne.
    + done.
  - simpl. unfold mbind, M_bind, bind. fold setup.
    rewrite setup_logging_returns.
    match goal with
    | |- context [setup_each _ ?l ?w0] =>
        destruct (IH l w0) as (l' & w' & Hrun & Hheap & Hh & Hl & Hcsv & Hother)
    end.
    rewrite Hrun. exists l', w'.
    split; [done|]. split; [by rewrite Hheap|].
    cbn [created logger_levels] in Hh, Hcsv, Hother.
    split.
    { rewrite Hh.
      by replace (S (created logging) + length earlier)
        with (created logging + S (length earlier)) by lia. }
    split; [done|].
    split.
    + rewrite Hcsv.
      destruct (existsb _ (earlier ++ [last])); [by rewrite orb_true_r|].
      rewrite orb_false_r.
      destruct (String.eqb (mode_of first) "test"); [by rewrite lookup_insert_eq|done].
    + intros name Hname. rewrite Hother by done.
      destruct (String.eqb (mode_of first) "test"); [by rewrite lookup_insert_ne|done].
Qed.
End LoggingFacts.

(** ** Instances *)

(** X1 at the locator of the application with its dots left out, or put
    in front. *)
Lemma register_malformed_locator_witness :
  occurs "." "CsvTaskRepository" = false
  ∧ register Examples empty_container "ITaskRepository" "CsvTaskRepository" fresh_world
    = Raise (failed_to_load "CsvTaskRepository"
               "not enough values to unpack (expected 2, got 1)") fresh_world
  ∧ register Examples empty_container "ITaskRepository" ".CsvTaskRepository" fresh_world
    = Raise (failed_to_load ".CsvTaskRepository" "Empty module name") fresh_world
  ∧ register Examples empty_container "ITaskRepository" ".data.CsvTaskRepository"
      fresh_world
    = Raise (mkExc TypeError
               "the 'package' argument is required to perform a relative import for '.data'")
        fresh_world.
Proof.
  pose proof (register_malformed_locator Examples empty_container "ITaskRepository"
                fresh_world) as (Hnone & Hempty & Hrelative).
  split; [reflexivity|]. split; [|split].
  - exact (Hnone "CsvTaskRepository" eq_refl).
  - exact (Hempty "CsvTaskRepository" eq_refl).
  - exact (Hrelative "data" "CsvTaskRepository" eq_refl).
Defined.

(** X2 at the service of the application. *)
Lemma resolve_passes_every_parameter_witness :
  NoDup (map Param.name (__init__ (classes Examples "TaskManagerService")))
  ∧ ∃ fuel' deps w1 d,
      3 = S fuel'
      ∧ resolve_dependencies Examples (resolve Examples fuel' csv_container)
          "TaskManagerService" (__init__ (classes Examples "TaskManagerService")) []
          fresh_world
        = Return deps w1
      ∧ keys deps = ["task_repository"]
      ∧ init_result (construct Examples "TaskManagerService" (heap w1) deps) = inr d.
Proof.
  assert (NoDup (map Param.name (__init__ (classes Examples "TaskManagerService"))))
    as Hnd.
  { apply (bool_decide_unpack _). vm_compute. exact I. }
  split; [exact Hnd|].
  eapply (resolve_passes_every_parameter Examples 3 csv_container "TaskManagerService"
            fresh_world); [exact Hnd|].
  vm_compute. reflexivity.
Defined.

(** X3 at a class whose only parameter is positional-only and has a
    default: the class is called with the default as a keyword argument,
    which Python refuses. *)
Lemma resolve_defaults_only_witness :
  isabstract Examples "Legacy" = false
  ∧ Forall settled_by_default (__init__ (classes Examples "Legacy"))
  ∧ defaults_of (__init__ (classes Examples "Legacy")) [] = [("level", VInt 1)]
  ∧ resolve Examples 1 empty_container "Legacy" fresh_world
    = (emit DEBUG "Resolving Legacy with dependencies: ['level']";;
       instantiate Examples "Legacy" [("level", VInt 1)]) fresh_world.
Proof.
  assert (Forall settled_by_default (__init__ (classes Examples "Legacy"))) as Hall.
  { apply List.Forall_cons; [by left|].
    apply List.Forall_cons; [|apply List.Forall_nil].
    right. split; [reflexivity|]. by eexists. }
  split; [reflexivity|]. split; [exact Hall|]. split; [reflexivity|].
  exact (resolve_defaults_only Examples 0 empty_container "Legacy" fresh_world
           eq_refl Hall).
Defined.

(** X4 at [str], the annotation of the path of the CSV repository. *)
Lemma resolve_class_without_init_witness :
  isabstract Examples "str" = false
  ∧ __init__ (classes Examples "str") = object_init_signature
  ∧ resolve Examples 1 empty_container "str" fresh_world
    = Raise (mkExc ValueError
               "Cannot resolve dependency 'args' for 'str': Missing type hint or default value.")
        fresh_world
  ∧ resolve_parameter Examples (resolve Examples 1 empty_container) "CsvTaskRepository"
      (typed_default "file_path" "str" VNone) [] fresh_world
    = Return [("file_path", VNone)]
        (logged fresh_world (optional_warning Examples "file_path" "CsvTaskRepository")).
Proof.
  pose proof (resolve_class_without_init Examples 0 empty_container "str"
                eq_refl eq_refl) as [Hres Hparam].
  split; [reflexivity|]. split; [reflexivity|]. split.
  - exact (Hres fresh_world).
  - exact (Hparam "CsvTaskRepository" (typed_default "file_path" "str" VNone) []
             fresh_world ltac:(discriminate) eq_refl).
Defined.


(** X14 at a checkout of the project under [/srv]. *)
Lemma default_file_path_location_witness :
  default_file_path "/srv/taskbuddy_project/data/csv_task_repository.py"
  = "/srv/data/csv/sample_data.csv".
Proof.
  exact (default_file_path_location "/srv" "taskbuddy_project" "data"
           "csv_task_repository.py" eq_refl ltac:(discriminate) ltac:(discriminate)
           eq_refl eq_refl eq_refl).
Defined.




(** X9 at a path that does not exist. *)
Lemma reading_errors_reach_the_caller_witness :
  sample_exists "nowhere.csv" = false
  ∧ ∃ w',
      get_task_by_id sample_exists sample_open sample_fieldnames sample_rows
        sample_UUID_of id sample_status sample_Task_init (λ t, t.1.1) (λ t, t.1.2)
        (λ _, "{...}") repr_list "{'id', 'title', 'status'}"
        {| file_path := "nowhere.csv" |} sample_id fresh_world
      = Raise (mkExc FileNotFoundError "CSV file not found at: nowhere.csv") w'.
Proof.
  split; [reflexivity|].
  exact (proj1 (reading_errors_reach_the_caller sample_exists sample_open
                  sample_fieldnames sample_rows sample_UUID_of id sample_status
                  sample_Task_init (λ t, t.1.1) (λ t, t.1.2) (λ _, "{...}") repr_list
                  "{'id', 'title', 'status'}" {| file_path := "nowhere.csv" |}
                  fresh_world)
           eq_refl sample_id).
Defined.



(** X12 at the sample file: the task that is in the file cannot be marked
    complete, and no task can be added. *)
Lemma csv_service_writes_witness :
  (∃ w',
     TaskManagerService_add_new_task sample_Task_pending sample_str_Task
       (sample_service sample_repository) "Buy milk" fresh_world
     = Raise (mkExc NotImplementedError
                "add_task is not implemented for CsvTaskRepository yet.") w'
     ∧ heap w' = heap fresh_world)
  ∧ (∃ w',
       TaskManagerService_mark_task_complete sample_mark_complete (λ _, true) id
         (sample_service sample_repository) sample_id fresh_world
       = Return false w').
Proof.
  pose proof (csv_service_writes sample_exists sample_open sample_fieldnames sample_rows
                sample_UUID_of id sample_status sample_Task_init (λ t, t.1.1)
                (λ t, t.1.2) (λ _, "{...}") repr_list "{'id', 'title', 'status'}"
                sample_Task_pending sample_mark_complete (λ _, true) sample_str_Task
                sample_repository fresh_world) as (Hadd & _ & Hmark).
  split.
  - exact (Hadd "Buy milk" _ eq_refl).
  - exact (Hmark (λ task, ex_intro _ _ eq_refl) sample_id).
Defined.

(** X13 at a checkout of the project under [/srv], every file being the
    sample file. *)
Lemma run_application_on_csv_witness :
  ∃ tasks w1 w2,
    run_application "/srv/taskbuddy_project/data/csv_task_repository.py"
      sample_call_get_all_tasks sample_str_Task 3 "dev" fresh_world
    = Return {| printed := []; exit_status := None |}
        {| heap := heap w1; log := log w2 ++ loaded_records sample_str_Task tasks |}.
Proof.
  destruct (run_application_on_csv (λ _, true) (λ _, inr "id,title,status")
              sample_fieldnames sample_rows sample_UUID_of id sample_status
              sample_Task_init (λ t, t.1.1) (λ t, t.1.2) (λ _, "{...}") repr_list
              "{'id', 'title', 'status'}" sample_str_Task
              "/srv/taskbuddy_project/data/csv_task_repository.py"
              sample_call_get_all_tasks 0 "dev" fresh_world)
    as (tasks & w1 & w2 & _ & _ & Hrun & _).
  - intros w0 svc repo path Hsvc Hrepo. unfold sample_call_get_all_tasks.
    rewrite Hsvc. simpl. rewrite Hrepo. reflexivity.
  - exists tasks, w1, w2. exact Hrun.
Defined.

(** X15 at three handlers: the loop leaves the second. *)
Lemma remove_each_leaves_every_second_witness :
  NoDup (map handler_id sample_handlers)
  ∧ remove_each 3 0 sample_handlers
    = (2, [ {| handler_id := 1; is_StreamHandler := false; handler_formatter := None |} ]).
Proof.
  assert (NoDup (map handler_id sample_handlers)) as Hnd.
  { apply (bool_decide_unpack _). vm_compute. exact I. }
  split; [exact Hnd|].
  exact (proj1 (remove_each_leaves_every_second sample_handlers Hnd)).
Defined.


